(** * Nonlinear elasticity: the Riemann problem of the notebook

    A shallow embedding of [Nonlinear_elasticity.ipynb]:
    - the helper cell: the stress derivative [dsigma] and the characteristic
      speeds [lambda1] and [lambda2];
    - the plotting glue: [make_plot_function],
      [plot_riemann_nonlinear_elasticity] and the comparison cell, as the
      calls they make to their collaborators;
    - the exact solver the notebook imports, [exact_riemann_solution], whose
      module is not part of the notebook: it is modelled from the written
      specification, in [ExactSolver].

    The Python code is written once for whatever numbers it is handed.  The
    embedding keeps that: the helpers are defined over a class [Num] of
    numbers and read at two instances,
    - [float], IEEE binary64 as numpy computes it (the notebook passes
      [np.array]s, so an invalid operation yields nan, at most with a
      warning, and no exception);
    - [R], the real numbers the notebook's formulas are about. *)

From Stdlib Require Import Reals Lra Lia List Bool ZArith String.
From Stdlib Require Import Floats.
Import ListNotations.

(** ** Numbers *)

Class Num (T : Type) : Type := {
  add  : T -> T -> T;
  mul  : T -> T -> T;
  div  : T -> T -> T;
  neg  : T -> T;
  sqrt : T -> T;        (* [np.sqrt] *)
  two  : T              (* the literal [2] *)
}.

Declare Scope num_scope.
Delimit Scope num_scope with num.
Infix "+" := add : num_scope.
Infix "*" := mul : num_scope.
Infix "/" := div : num_scope.
Notation "- x" := (neg x) : num_scope.

#[export] Instance Num_R : Num R := {
  add := Rplus; mul := Rmult; div := Rdiv; neg := Ropp;
  sqrt := R_sqrt.sqrt; two := 2%R
}.

#[export] Instance Num_float : Num float := {
  add := PrimFloat.add; mul := PrimFloat.mul; div := PrimFloat.div;
  neg := PrimFloat.opp; sqrt := PrimFloat.sqrt; two := 2%float
}.

(** ** The code cell of the helpers *)

(** A state [q] is the pair (strain, momentum); [aux] is the triple
    (rho, K1, K2) of one side. *)
Definition State (T : Type) : Type := (T * T)%type.
Definition Aux (T : Type) : Type := (T * T * T)%type.

Section Helpers.
Context {T : Type} `{Num T}.
Local Open Scope num_scope.

(** [def dsigma(eps, K1, K2): return K1 + 2*K2*eps] *)
Definition dsigma (eps K1 K2 : T) : T := K1 + two * K2 * eps.

(** [def lambda1(q, xi, aux):
       eps = q[0]
       rho, K1, K2 = aux
       return -np.sqrt(dsigma(eps, K1, K2)/rho)] *)
Definition lambda1 (q : State T) (xi : T) (aux : Aux T) : T :=
  let eps := fst q in
  let '(rho, K1, K2) := aux in
  - sqrt (dsigma eps K1 K2 / rho).

(** [def lambda2(q, xi, aux): return -lambda1(q,xi,aux)] *)
Definition lambda2 (q : State T) (xi : T) (aux : Aux T) : T :=
  - lambda1 q xi aux.
End Helpers.


(** Modelled from the spec: the stress law [sigma = K1*eps + K2*eps^2] of
    section 3.  The notebook states it in its text; the function [sigma]
    itself is in the module [exact_solvers/nonlinear_elasticity.py], which is
    not among the sources. *)
Definition sigma {T : Type} `{Num T} (eps K1 K2 : T) : T :=
  (K1 * eps + K2 * (eps * eps))%num.

(** Modelled from the spec: the velocity [u] of a state, whose second
    component is the momentum [rho * u] (section 3); the code that converts
    is in the missing solver module. *)
Definition velocity {T : Type} `{Num T} (q : State T) (aux : Aux T) : T :=
  let '(rho, _, _) := aux in (snd q / rho)%num.

(** A binary64 value that is not below zero: nan, a zero of either sign, or
    a value whose sign bit is clear. *)
Definition SF_not_negative (f : spec_float) : bool :=
  match f with
  | S754_nan | S754_zero _ => true
  | S754_infinity s | S754_finite s _ _ => negb s
  end.

(** A binary64 number (not nan) that is not below zero. *)
Definition SF_number_not_negative (f : spec_float) : bool :=
  match f with
  | S754_nan => false
  | S754_zero _ => true
  | S754_infinity s | S754_finite s _ _ => negb s
  end.

(** ** The plotting glue

    [make_plot_function] and [plot_riemann_nonlinear_elasticity] only hand
    Python objects on to collaborators that live outside the notebook: the
    exact solver and the phase-plane plot of [exact_solvers], the plots of
    [riemann_tools], [plt.show] and [interact].  A run is modelled by the
    calls it makes to them, in order, and by its result or the exception it
    raises.  What a collaborator returns is a parameter. *)

Inductive exn : Type :=
| ValueError    (* unpacking a sequence of the wrong length *)
| IndexError.   (* indexing a sequence out of range *)

(** [widgets.FloatSlider(value, min, max, step)] and
    [widgets.Dropdown(options, description)]. *)
Inductive widget : Type :=
| FloatSlider (value min max step : float)
| Dropdown (options : list (option Z)) (description : string).

Section Glue.
(** Python objects that are passed through without being inspected. *)
Variable Obj : Type.

Inductive call : Type :=
| exact_riemann_solution_call (q_l q_r aux_l aux_r : Obj)
| plot_riemann_call (states speeds reval wave_types : Obj)
    (t : float) (t_pointer : Z) (extra_axes : bool)
    (variable_names : list string)
| plot_characteristics_call (reval : Obj)
    (speed : State float -> float -> Aux float -> float)
    (aux : Obj * Obj) (axes : Obj)
| phase_plane_plot_call (q_l q_r aux_l aux_r axes : Obj)
| show_call
| tools_make_plot_function_call
    (states speeds reval : list Obj)
    (wave_types : Obj * list string) (names : list string)
    (layout : string) (variable_names : Obj)
| interact_call (f : callback) (kwargs : list (string * widget))
with callback : Type :=
| closure (f : float -> option Z -> list call * (exn + unit))
| external (f : Obj).

(** A run: the collaborator calls made so far, and an exception or a
    value. *)
Definition Py (A : Type) : Type := (list call * (exn + A))%type.

Definition ret {A : Type} (a : A) : Py A := ([], inr a).
Definition raise {A : Type} (e : exn) : Py A := ([], inl e).
Definition emit (c : call) : Py unit := ([c], inr tt).

Definition bind {A B : Type} (m : Py A) (k : A -> Py B) : Py B :=
  match m with
  | (log, inl e) => (log, inl e)
  | (log, inr a) => let '(log', r) := k a in (log ++ log', r)
  end.

Notation "x <- m ;; k" := (bind m (fun x => k))
  (at level 61, m at next level, right associativity).
Notation "m ;; k" := (bind m (fun _ => k))
  (at level 61, right associativity).
Notation "' pat <- m ;; k" := (bind m (fun x => let 'pat := x in k))
  (at level 61, pat pattern, m at next level, right associativity).

Definition calls {A : Type} (m : Py A) : list call := fst m.
Definition outcome {A : Type} (m : Py A) : exn + A := snd m.

(** The collaborators' results. *)
Variable exact_riemann_solution : Obj -> Obj -> Obj -> Obj -> list Obj.
Variable plot_riemann : Obj -> Obj -> Obj -> Obj -> float -> list Obj.
Variable tools_make_plot_function :
  list Obj -> list Obj -> list Obj -> Obj * list string -> Obj.
Variable conserved_variables : Obj.

(** The solver calls of a run, each as [(q_l, q_r, aux_l, aux_r)]. *)
Fixpoint solver_calls (log : list call) : list (Obj * Obj * Obj * Obj) :=
  match log with
  | [] => []
  | exact_riemann_solution_call q_l q_r aux_l aux_r :: log' =>
      (q_l, q_r, aux_l, aux_r) :: solver_calls log'
  | _ :: log' => solver_calls log'
  end.

(** [a, b, c, d = seq] *)
Definition unpack4 (seq : list Obj) : Py (Obj * Obj * Obj * Obj) :=
  match seq with
  | [a; b; c; d] => ret (a, b, c, d)
  | _ => raise ValueError
  end.

(** [seq[i]] *)
Definition item (seq : list Obj) (i : nat) : Py Obj :=
  match nth_error seq i with
  | Some x => ret x
  | None => raise IndexError
  end.

(** The inner function of [make_plot_function], with the variables it
    closes over as leading parameters:
    [def plot_function(t,which_char):
         ax = riemann_tools.plot_riemann(states,speeds,reval,wave_types,
                                         t=t,t_pointer=0,
                                         extra_axes=True,
                                         variable_names=['Strain','Momentum'])
         if which_char == 1:
             riemann_tools.plot_characteristics(reval,lambda1,(aux_l,aux_r),ax[0])
         elif which_char == 2:
             riemann_tools.plot_characteristics(reval,lambda2,(aux_l,aux_r),ax[0])
         nonlinear_elasticity.phase_plane_plot(q_l, q_r, aux_l, aux_r, ax[3])
         plt.show()] *)
Definition plot_function
    (states speeds reval wave_types q_l q_r aux_l aux_r : Obj)
    (t : float) (which_char : option Z) : Py unit :=
  emit (plot_riemann_call states speeds reval wave_types t 0 true
          ["Strain"; "Momentum"]%string) ;;
  let ax := plot_riemann states speeds reval wave_types t in
  (match which_char with
   | Some 1%Z =>
       ax0 <- item ax 0 ;;
       emit (plot_characteristics_call reval lambda1 (aux_l, aux_r) ax0)
   | Some 2%Z =>
       ax0 <- item ax 0 ;;
       emit (plot_characteristics_call reval lambda2 (aux_l, aux_r) ax0)
   | _ => ret tt
   end) ;;
  ax3 <- item ax 3 ;;
  emit (phase_plane_plot_call q_l q_r aux_l aux_r ax3) ;;
  emit show_call.

(** [def make_plot_function(q_l, q_r, aux_l, aux_r):
       states, speeds, reval, wave_types = \
           nonlinear_elasticity.exact_riemann_solution(q_l,q_r,aux_l,aux_r)
       def plot_function(t,which_char): ...
       return plot_function] *)
Definition make_plot_function (q_l q_r aux_l aux_r : Obj)
    : Py (float -> option Z -> Py unit) :=
  emit (exact_riemann_solution_call q_l q_r aux_l aux_r) ;;
  '(states, speeds, reval, wave_types) <-
    unpack4 (exact_riemann_solution q_l q_r aux_l aux_r) ;;
  ret (plot_function states speeds reval wave_types q_l q_r aux_l aux_r).

(** [def plot_riemann_nonlinear_elasticity(rho_l,rho_r,v_l,v_r):
       plot_function = make_plot_function(rho_l,rho_r,v_l,v_r)
       interact(plot_function,
                t=widgets.FloatSlider(value=0.,min=0,max=1.,step=0.1),
                which_char=widgets.Dropdown(options=[None,1,2],
                                            description='Show characteristics'));] *)
Definition plot_riemann_nonlinear_elasticity (rho_l rho_r v_l v_r : Obj)
    : Py unit :=
  plot_function <- make_plot_function rho_l rho_r v_l v_r ;;
  emit (interact_call (closure plot_function)
          [("t", FloatSlider 0 0 1 0x1.999999999999ap-4);
           ("which_char",
            Dropdown [None; Some 1%Z; Some 2%Z] "Show characteristics")]%string).

(** The comparison cell, a second caller of the solver; the globals it
    reads are its parameters:
    [ex_states, ex_speeds, ex_reval, wave_types = \
         nonlinear_elasticity.exact_riemann_solution(q_l,q_r,aux_l,aux_r)
     varnames = nonlinear_elasticity.conserved_variables
     plot_function = riemann_tools.make_plot_function([ex_states,fw_states],
                         [ex_speeds,fw_speeds], [ex_reval,fw_reval],
                         [wave_types,['contact']*3], ['Exact','$f$-wave'],
                         layout='vertical', variable_names=varnames)
     interact(plot_function,
              t=widgets.FloatSlider(value=0.4,min=0, max=0.9, step=0.1));] *)
Definition comparison_cell
    (q_l q_r aux_l aux_r fw_states fw_speeds fw_reval : Obj) : Py unit :=
  emit (exact_riemann_solution_call q_l q_r aux_l aux_r) ;;
  '(ex_states, ex_speeds, ex_reval, wave_types) <-
    unpack4 (exact_riemann_solution q_l q_r aux_l aux_r) ;;
  let varnames := conserved_variables in
  let contacts := ["contact"; "contact"; "contact"]%string in
  emit (tools_make_plot_function_call
          [ex_states; fw_states] [ex_speeds; fw_speeds] [ex_reval; fw_reval]
          (wave_types, contacts) ["Exact"; "$f$-wave"]%string
          "vertical" varnames) ;;
  let plot_function :=
    tools_make_plot_function
      [ex_states; fw_states] [ex_speeds; fw_speeds] [ex_reval; fw_reval]
      (wave_types, contacts) in
  emit (interact_call (external plot_function)
          [("t", FloatSlider 0x1.999999999999ap-2 0 0x1.ccccccccccccdp-1
                   0x1.999999999999ap-4)]%string).
End Glue.

Arguments exact_riemann_solution_call {Obj}.
Arguments plot_riemann_call {Obj}.
Arguments plot_characteristics_call {Obj}.
Arguments phase_plane_plot_call {Obj}.
Arguments show_call {Obj}.
Arguments tools_make_plot_function_call {Obj}.
Arguments interact_call {Obj}.
Arguments closure {Obj}.
Arguments external {Obj}.
Arguments ret {Obj A}.
Arguments raise {Obj A}.
Arguments emit {Obj}.
Arguments bind {Obj A B}.
Arguments calls {Obj A}.
Arguments outcome {Obj A}.
Arguments solver_calls {Obj}.
Arguments unpack4 {Obj}.
Arguments item {Obj}.
Arguments plot_function {Obj}.
Arguments make_plot_function {Obj}.
Arguments plot_riemann_nonlinear_elasticity {Obj}.
Arguments comparison_cell {Obj}.

(** ** The exact Riemann solver *)

Module ExactSolver.
Local Open Scope R_scope.

(** Modelled from the spec: the module [exact_solvers/nonlinear_elasticity.py],
    which defines [exact_riemann_solution], is not among the sources; the
    notebook only imports and calls it.  The solver is written here after
    the spec's sections 3, 4 and 7, over the reals.  Each value
    [WaveType] names the kind of wave of one family. *)
Inductive WaveType : Type := shock | rarefaction.

(** Modelled from the spec: the three error kinds of section 7, absent
    from the sources with the solver. *)
Inductive error : Type :=
| InvalidMaterialParams
| RootFindNonConvergence
| DegenerateInput.

(** Modelled from the spec: the speed of one wave (the solver is missing).
    A shock has the one speed of section 4.4; a rarefaction fan lies
    between two characteristic speeds, kept in the order of [xi]. *)
Inductive WaveSpeed : Type :=
| shock_speed (s : R)
| fan_speeds (first last : R).

(** Modelled from the spec: the aggregate [RiemannSolution] of section 3
    (the solver is missing): the states [left, left-star, right-star,
    right], the two wave speeds, a [WaveType] per family and the
    evaluator. *)
Record RiemannSolution : Type := {
  states : list (State R);
  speeds : list WaveSpeed;
  wave_types : list WaveType;
  evaluator : R -> State R
}.

(** Modelled from the spec: the general-purpose nonlinear equation solver
    of section 4.2, an outside library that the missing solver calls.
    Started from a seed it returns a point or reports that it did not
    converge; [tol] is its tolerance. *)
Record RootFinder : Type := {
  tol : R;
  find_root : (R * R -> R * R) -> R * R -> option (R * R)
}.

(** Modelled from the spec: the root finder's contract in section 4.2,
    "non-convergence ... is a reported numerical failure, not a silent
    wrong answer" (the root finder is not among the sources): a point it
    returns satisfies both equations within the tolerance. *)
Definition no_silent_failure (rf : RootFinder) : Prop :=
  forall F x0 x, find_root rf F x0 = Some x ->
    Rabs (fst (F x)) < tol rf /\ Rabs (snd (F x)) < tol rf.

(** Modelled from the spec: the power [x^(3/2)] of the integral-curve
    relations (the solver is missing), written [x * sqrt x]; the two agree
    for [x >= 0]. *)
Definition pow32 (x : R) : R := x * R_sqrt.sqrt x.

(** Modelled from the spec: the plug point [stress(eps, params)] of
    section 4.1 (missing with the solver), fixed to the quadratic law. *)
Definition stress (eps : R) (aux : Aux R) : R :=
  let '(_, K1, K2) := aux in sigma eps K1 K2.

(** Modelled from the spec: the plug point [dstress(eps, params)] of
    section 4.1 (missing with the solver); it is [dsigma] of the notebook. *)
Definition dstress (eps : R) (aux : Aux R) : R :=
  let '(_, K1, K2) := aux in dsigma eps K1 K2.

(** Modelled from the spec: the integral-curve relations of section 4.2
    (the solver is missing),
    [u*_l = u_l + (dsigma_l(eps*_l)^(3/2) - dsigma_l(eps_l)^(3/2)) / (3 K2_l sqrt(rho_l))],
    [u*_r = u_r - (dsigma_r(eps*_r)^(3/2) - dsigma_r(eps_r)^(3/2)) / (3 K2_r sqrt(rho_r))]. *)
Definition integral_curve_1 (q_l : State R) (aux_l : Aux R) (eps : R) : R :=
  let '(rho_l, K1_l, K2_l) := aux_l in
  velocity q_l aux_l
  + (pow32 (dsigma eps K1_l K2_l) - pow32 (dsigma (fst q_l) K1_l K2_l))
    / (3 * K2_l * R_sqrt.sqrt rho_l).

(** Modelled from the spec: the second of the integral-curve relations
    of section 4.2 (the solver is missing), for the right side. *)
Definition integral_curve_2 (q_r : State R) (aux_r : Aux R) (eps : R) : R :=
  let '(rho_r, K1_r, K2_r) := aux_r in
  velocity q_r aux_r
  - (pow32 (dsigma eps K1_r K2_r) - pow32 (dsigma (fst q_r) K1_r K2_r))
    / (3 * K2_r * R_sqrt.sqrt rho_r).

(** Modelled from the spec: the coupled system of section 4.2 in the
    unknowns [(eps*_l, eps*_r)], solved jointly (the solver is missing):
    velocity continuity and stress continuity, each as a difference that
    is to vanish. *)
Definition coupled_system (q_l q_r : State R) (aux_l aux_r : Aux R)
    (x : R * R) : R * R :=
  (integral_curve_1 q_l aux_l (fst x) - integral_curve_2 q_r aux_r (snd x),
   stress (fst x) aux_l - stress (snd x) aux_r).

(** Modelled from the spec: the seed, "the average of left/right strains"
    (the solver is missing). *)
Definition seed (q_l q_r : State R) : R * R :=
  ((fst q_l + fst q_r) / 2, (fst q_l + fst q_r) / 2).

(** Modelled from the spec: the validity test behind
    [InvalidMaterialParams], "non-positive density or stress slope" (the
    solver is missing). *)
Definition valid_side (q : State R) (aux : Aux R) : bool :=
  let '(rho, _, _) := aux in
  if Rlt_dec 0 rho then
    if Rlt_dec 0 (dstress (fst q) aux) then true else false
  else false.

(** Modelled from the spec: the test behind [DegenerateInput], "K2 = 0 on a
    side" (the solver is missing). *)
Definition degenerate_side (aux : Aux R) : bool :=
  let '(_, _, K2) := aux in
  if Req_dec_T K2 0 then true else false.

(** Modelled from the spec: the wave classifier of section 4.3, "shock if
    the entropy condition holds (eps* > eps on that side), else
    rarefaction" (the solver is missing). *)
Definition classify (eps eps_star : R) : WaveType :=
  if Rlt_dec eps eps_star then shock else rarefaction.

(** Modelled from the spec: the wave speeds of section 4.4 (the solver is
    missing): [s1 = -sqrt((sigma_l(eps*_l) - sigma_l(eps_l)) (eps*_l - eps_l) / rho_l)]
    for a 1-shock, a fan between [lambda1] at [eps_l] and at [eps*_l] for
    a 1-rarefaction, and the mirror image for family 2. *)
Definition wave_speed_1 (q_l q_star_l : State R) (aux_l : Aux R) : WaveSpeed :=
  let '(rho_l, _, _) := aux_l in
  match classify (fst q_l) (fst q_star_l) with
  | shock =>
      shock_speed
        (- R_sqrt.sqrt ((stress (fst q_star_l) aux_l - stress (fst q_l) aux_l)
                        * (fst q_star_l - fst q_l) / rho_l))
  | rarefaction =>
      fan_speeds (lambda1 q_l 0 aux_l) (lambda1 q_star_l 0 aux_l)
  end.

(** Modelled from the spec: the speed of the 2-wave, the mirror image of
    [wave_speed_1] (the solver is missing). *)
Definition wave_speed_2 (q_r q_star_r : State R) (aux_r : Aux R) : WaveSpeed :=
  let '(rho_r, _, _) := aux_r in
  match classify (fst q_r) (fst q_star_r) with
  | shock =>
      shock_speed
        (R_sqrt.sqrt ((stress (fst q_star_r) aux_r - stress (fst q_r) aux_r)
                      * (fst q_star_r - fst q_r) / rho_r))
  | rarefaction =>
      fan_speeds (lambda2 q_star_r 0 aux_r) (lambda2 q_r 0 aux_r)
  end.

(** Modelled from the spec: the strain inside a fan, section 4.4 (the
    solver is missing): [eps(xi) = (rho xi^2 - K1) / (2 K2)]. *)
Definition fan_strain (aux : Aux R) (xi : R) : R :=
  let '(rho, K1, K2) := aux in (rho * (xi * xi) - K1) / (2 * K2).

(** Modelled from the spec: the state inside a 1-fan (the solver is
    missing): the strain [eps(xi)], and the momentum from the left
    integral-curve relation at [eps(xi)]. *)
Definition fan_state_1 (q_l : State R) (aux_l : Aux R) (xi : R) : State R :=
  let '(rho_l, _, _) := aux_l in
  (fan_strain aux_l xi,
   rho_l * integral_curve_1 q_l aux_l (fan_strain aux_l xi)).

(** Modelled from the spec: the state inside a 2-fan, the mirror image
    of [fan_state_1] (the solver is missing). *)
Definition fan_state_2 (q_r : State R) (aux_r : Aux R) (xi : R) : State R :=
  let '(rho_r, _, _) := aux_r in
  (fan_strain aux_r xi,
   rho_r * integral_curve_2 q_r aux_r (fan_strain aux_r xi)).

(** Modelled from the spec: the solution evaluator of section 4.4 (the
    solver is missing).  Left of the interface come the left state, the
    1-wave and the left-star state; right of it the right-star state, the
    2-wave and the right state.  The spec names the jump at [xi = 0] and
    no value there; the right-hand one is taken. *)
Definition evaluate (q_l q_star_l q_star_r q_r : State R)
    (aux_l aux_r : Aux R) (w1 w2 : WaveSpeed) (xi : R) : State R :=
  if Rlt_dec xi 0 then
    match w1 with
    | shock_speed s1 => if Rlt_dec xi s1 then q_l else q_star_l
    | fan_speeds first last =>
        if Rlt_dec xi first then q_l
        else if Rle_dec xi last then fan_state_1 q_l aux_l xi
        else q_star_l
    end
  else
    match w2 with
    | shock_speed s2 => if Rlt_dec s2 xi then q_r else q_star_r
    | fan_speeds first last =>
        if Rlt_dec last xi then q_r
        else if Rle_dec first xi then fan_state_2 q_r aux_r xi
        else q_star_r
    end.

(** Modelled from the spec: the aggregate built from resolved strains
    (the solver is missing); the velocity [u*] is shared by the two star
    states, whose momenta are [rho_l u*] and [rho_r u*]. *)
Definition assemble (q_l q_r : State R) (aux_l aux_r : Aux R)
    (eps_star_l eps_star_r : R) : RiemannSolution :=
  let '(rho_l, _, _) := aux_l in
  let '(rho_r, _, _) := aux_r in
  let u_star := integral_curve_1 q_l aux_l eps_star_l in
  let q_star_l := (eps_star_l, rho_l * u_star) in
  let q_star_r := (eps_star_r, rho_r * u_star) in
  let w1 := wave_speed_1 q_l q_star_l aux_l in
  let w2 := wave_speed_2 q_r q_star_r aux_r in
  {| states := [q_l; q_star_l; q_star_r; q_r];
     speeds := [w1; w2];
     wave_types := [classify (fst q_l) eps_star_l;
                    classify (fst q_r) eps_star_r];
     evaluator := evaluate q_l q_star_l q_star_r q_r aux_l aux_r w1 w2 |}.

(** Modelled from the spec: [solve(q_l, q_r, aux_l, aux_r)] of section 6
    (the solver [exact_riemann_solution] is missing), with the three
    failures of section 7 "detected at the Root-Finder boundary and
    returned as explicit failure results".  For [K2 = 0] section 7 also
    speaks of a fallback to a linear relation, for which it gives no
    formula; the model follows its propagation policy. *)
Definition solve (rf : RootFinder) (q_l q_r : State R) (aux_l aux_r : Aux R)
    : error + RiemannSolution :=
  if negb (valid_side q_l aux_l && valid_side q_r aux_r) then
    inl InvalidMaterialParams
  else if degenerate_side aux_l || degenerate_side aux_r then
    inl DegenerateInput
  else
    match find_root rf (coupled_system q_l q_r aux_l aux_r) (seed q_l q_r) with
    | None => inl RootFindNonConvergence
    | Some (eps_star_l, eps_star_r) =>
        inr (assemble q_l q_r aux_l aux_r eps_star_l eps_star_r)
    end.

(** A root finder to run the solver with: it tries the seed and then the
    points of a given list, and returns the first that satisfies both
    equations within the tolerance [t]. *)
Definition within (t : R) (y : R * R) : bool :=
  if Rlt_dec (Rabs (fst y)) t then
    if Rlt_dec (Rabs (snd y)) t then true else false
  else false.

Definition try_points (t : R) (pts : list (R * R)) : RootFinder :=
  {| tol := t;
     find_root := fun F x0 => List.find (fun x => within t (F x)) (x0 :: pts) |}.

(** The root finder of the worked example below: tolerance 1/1000, and the
    one point [(1, 2)] to try after the seed. *)
Definition contact_finder : RootFinder := try_points (1 / 1000) [(1, 2)].
End ExactSolver.

(** ** Calls within a notebook session

    A call runs in the session's store of global objects ([q_l], [q_r],
    [aux_l], [aux_r], the f-wave results, the matplotlib settings, ...),
    which it may read and change.  The store is left abstract: a call is a
    function from the store before to its result and the store after. *)

Section Session.
Variable Store : Type.

Definition Session (A : Type) : Type := Store -> A * Store.

(** A call is stateless when its result is the same in every store and
    it leaves the store as it found it. *)
Definition stateless {A : Type} (c : Session A) : Prop :=
  forall g g' : Store, fst (c g) = fst (c g') /\ snd (c g) = g.

Context {T : Type} `{Num T}.

(** The bodies of [dsigma], [lambda1] and [lambda2] name their parameters
    and each other and nothing else; they assign to locals only. *)
Definition call_dsigma (eps K1 K2 : T) : Session T :=
  fun g => (dsigma eps K1 K2, g).

Definition call_lambda1 (q : State T) (xi : T) (aux : Aux T) : Session T :=
  fun g => (lambda1 q xi aux, g).

Definition call_lambda2 (q : State T) (xi : T) (aux : Aux T) : Session T :=
  fun g => (lambda2 q xi aux, g).
End Session.

Arguments stateless {Store A}.

(** Modelled from the spec: a call of the missing solver in a session;
    section 5 has it touch no global state. *)
Definition call_solve (Store : Type) (rf : ExactSolver.RootFinder)
    (q_l q_r : State R) (aux_l aux_r : Aux R)
    : Session Store (ExactSolver.error + ExactSolver.RiemannSolution) :=
  fun g => (ExactSolver.solve rf q_l q_r aux_l aux_r, g).

(** ** Readings of a run and of a binary64 value used further below *)

(** Whether a binary64 value is nan. *)
Definition SF_is_nan (f : spec_float) : bool :=
  match f with
  | S754_nan => true
  | _ => false
  end.

(** The characteristic overlays of a run: for each call of
    [riemann_tools.plot_characteristics], the speed function, the pair of
    parameters and the axes it was given. *)
Fixpoint characteristics_calls {Obj : Type} (log : list (call Obj))
    : list ((State float -> float -> Aux float -> float) * (Obj * Obj) * Obj) :=
  match log with
  | [] => []
  | plot_characteristics_call _ speed aux axes :: log' =>
      (speed, aux, axes) :: characteristics_calls log'
  | _ :: log' => characteristics_calls log'
  end.

(** The phase-plane plots of a run, each as [(q_l, q_r, aux_l, aux_r, axes)]. *)
Fixpoint phase_plane_calls {Obj : Type} (log : list (call Obj))
    : list (Obj * Obj * Obj * Obj * Obj) :=
  match log with
  | [] => []
  | phase_plane_plot_call q_l q_r aux_l aux_r axes :: log' =>
      (q_l, q_r, aux_l, aux_r, axes) :: phase_plane_calls log'
  | _ :: log' => phase_plane_calls log'
  end.

(** How often a run reaches [plt.show()], and how often [interact]. *)
Fixpoint show_calls {Obj : Type} (log : list (call Obj)) : nat :=
  match log with
  | [] => 0
  | show_call :: log' => S (show_calls log')
  | _ :: log' => show_calls log'
  end.

Fixpoint interact_calls {Obj : Type} (log : list (call Obj)) : nat :=
  match log with
  | [] => 0
  | interact_call _ _ :: log' => S (interact_calls log')
  | _ :: log' => interact_calls log'
  end.

(** How often a run draws with [riemann_tools.plot_riemann]. *)
Fixpoint plot_riemann_calls {Obj : Type} (log : list (call Obj)) : nat :=
  match log with
  | [] => 0
  | plot_riemann_call _ _ _ _ _ _ _ _ :: log' => S (plot_riemann_calls log')
  | _ :: log' => plot_riemann_calls log'
  end.

(** ** The data cells of the notebook, run in a session

    The cells that follow the function definitions assign and read
    module-level names.  A session holds those names in [Globals]; reading
    a name that no cell has assigned raises [NameError], and what a cell
    has assigned before it fails stays assigned.  The imported modules and
    the functions that earlier cells define are taken as present. *)

Inductive cell_exn : Type :=
| NameError (name : string)   (* a global name that is not defined *)
| Raised (e : exn).           (* an exception of the code that is called *)

Section Notebook.
Variable Obj : Type.

(** Objects the cells build or name: [np.array(...)], the literal
    dictionary of [problem_data], and the f-wave solver
    [riemann.nonlinear_elasticity_1D_py.nonlinear_elasticity_1D]. *)
Variable array : list float -> Obj.
Variable dict : list (string * string) -> Obj.
Variable nonlinear_elasticity_1D : Obj.

(** The collaborators' results. *)
Variable exact_riemann_solution : Obj -> Obj -> Obj -> Obj -> list Obj.
Variable plot_riemann : Obj -> Obj -> Obj -> Obj -> float -> list Obj.
Variable tools_make_plot_function :
  list Obj -> list Obj -> list Obj -> Obj * list string -> Obj.
Variable conserved_variables : Obj.
Variable riemann_solution : Obj -> Obj -> Obj -> Obj -> Obj -> Obj -> list Obj.
Variable fwave_make_plot_function : Obj -> Obj -> Obj -> Obj.

(** The collaborator calls of a session: those of the plotting glue, and
    the two calls of [riemann_tools] that only the f-wave cells make. *)
Inductive event : Type :=
| glue (c : call Obj)
| riemann_solution_call (solver q_l q_r aux_l aux_r problem_data : Obj)
    (verbose stationary_wave fwave : bool)
| fwave_make_plot_function_call (states speeds reval : Obj)
    (layout : string) (variable_names : list string).

Definition Globals : Type := string -> option Obj.

Definition no_globals : Globals := fun _ => None.

Definition assign (name : string) (v : Obj) (g : Globals) : Globals :=
  fun n => if String.eqb n name then Some v else g n.

(** A cell: from the globals before to the calls made, an exception or a
    value, and the globals after. *)
Definition Cell (A : Type) : Type :=
  Globals -> list event * (cell_exn + A) * Globals.

Definition cell_ret {A : Type} (a : A) : Cell A := fun g => ([], inr a, g).

Definition cell_bind {A B : Type} (m : Cell A) (k : A -> Cell B) : Cell B :=
  fun g =>
    match m g with
    | (log, inl e, g') => (log, inl e, g')
    | (log, inr a, g') =>
        let '(log', r, g'') := k a g' in (log ++ log', r, g'')
    end.

(** Reading and assigning a global name. *)
Definition lookup (name : string) : Cell Obj :=
  fun g =>
    match g name with
    | Some v => ([], inr v, g)
    | None => ([], inl (NameError name), g)
    end.

Definition store (name : string) (v : Obj) : Cell unit :=
  fun g => ([], inr tt, assign name v g).

Definition cell_emit (e : event) : Cell unit := fun g => ([e], inr tt, g).

(** Running code of the plotting glue inside a cell. *)
Definition run_glue {A : Type} (m : Py Obj A) : Cell A :=
  fun g =>
    (map glue (calls m),
     match outcome m with
     | inl e => inl (Raised e)
     | inr a => inr a
     end,
     g).

(** [a, b, c = seq] *)
Definition unpack3 (seq : list Obj) : Cell (Obj * Obj * Obj) :=
  match seq with
  | [a; b; c] => cell_ret (a, b, c)
  | _ => fun g => ([], inl (Raised ValueError), g)
  end.

Notation "x <- m ;; k" := (cell_bind m (fun x => k))
  (at level 61, m at next level, right associativity).
Notation "m ;; k" := (cell_bind m (fun _ => k))
  (at level 61, right associativity).
Notation "' pat <- m ;; k" := (cell_bind m (fun x => let 'pat := x in k))
  (at level 61, pat pattern, m at next level, right associativity).

Local Open Scope string_scope.

(** [aux_l = np.array((1., 5., 1.))
     aux_r = np.array((1., 2., 1.))
     q_l = np.array([2.1, 0.])
     q_r = np.array([0.0, 0.])

     plot_riemann_nonlinear_elasticity(q_l, q_r, aux_l, aux_r)] *)
Definition data_cell : Cell unit :=
  store "aux_l" (array [1; 5; 1]%float) ;;
  store "aux_r" (array [1; 2; 1]%float) ;;
  store "q_l" (array [0x1.0cccccccccccdp+1; 0]%float) ;;
  store "q_r" (array [0; 0]%float) ;;
  a <- lookup "q_l" ;;
  b <- lookup "q_r" ;;
  c <- lookup "aux_l" ;;
  d <- lookup "aux_r" ;;
  run_glue (plot_riemann_nonlinear_elasticity exact_riemann_solution
              plot_riemann a b c d).

(** [solver = riemann.nonlinear_elasticity_1D_py.nonlinear_elasticity_1D

     problem_data = {'stress_relation' : 'quadratic'}
     fw_states, fw_speeds, fw_reval = \
                 riemann_tools.riemann_solution(solver,q_l,q_r,aux_l,aux_r,
                                                problem_data=problem_data,
                                                verbose=False,
                                                stationary_wave=True,
                                                fwave=True)] *)
Definition fwave_cell : Cell unit :=
  store "solver" nonlinear_elasticity_1D ;;
  store "problem_data" (dict [("stress_relation", "quadratic")]) ;;
  s <- lookup "solver" ;;
  a <- lookup "q_l" ;;
  b <- lookup "q_r" ;;
  c <- lookup "aux_l" ;;
  d <- lookup "aux_r" ;;
  p <- lookup "problem_data" ;;
  cell_emit (riemann_solution_call s a b c d p false true true) ;;
  '(fw_states, fw_speeds, fw_reval) <-
    unpack3 (riemann_solution s a b c d p) ;;
  store "fw_states" fw_states ;;
  store "fw_speeds" fw_speeds ;;
  store "fw_reval" fw_reval.

(** [plot_function = \
         riemann_tools.make_plot_function(fw_states,fw_speeds, fw_reval,
                                          layout='vertical',
                                          variable_names=('Strain','Momentum'))
     interact(plot_function, t=widgets.FloatSlider(value=0.4,min=0,max=.9,step=.1));] *)
Definition fwave_plot_cell : Cell unit :=
  fw_states <- lookup "fw_states" ;;
  fw_speeds <- lookup "fw_speeds" ;;
  fw_reval <- lookup "fw_reval" ;;
  cell_emit (fwave_make_plot_function_call fw_states fw_speeds fw_reval
               "vertical" ["Strain"; "Momentum"]) ;;
  store "plot_function"
    (fwave_make_plot_function fw_states fw_speeds fw_reval) ;;
  plot_function <- lookup "plot_function" ;;
  cell_emit
    (glue (interact_call (external plot_function)
             [("t", FloatSlider 0x1.999999999999ap-2 0 0x1.ccccccccccccdp-1
                      0x1.999999999999ap-4)])).

(** The comparison cell, reading and assigning its globals in the order
    the statements do:
    [ex_states, ex_speeds, ex_reval, wave_types = \
         nonlinear_elasticity.exact_riemann_solution(q_l,q_r,aux_l,aux_r)

     varnames = nonlinear_elasticity.conserved_variables
     plot_function = riemann_tools.make_plot_function([ex_states,fw_states],
                         [ex_speeds,fw_speeds], [ex_reval,fw_reval],
                         [wave_types,['contact']*3], ['Exact','$f$-wave'],
                         layout='vertical', variable_names=varnames)
     interact(plot_function,
              t=widgets.FloatSlider(value=0.4,min=0, max=0.9, step=0.1));] *)
Definition comparison_cell_in_session : Cell unit :=
  a <- lookup "q_l" ;;
  b <- lookup "q_r" ;;
  c <- lookup "aux_l" ;;
  d <- lookup "aux_r" ;;
  cell_emit (glue (exact_riemann_solution_call a b c d)) ;;
  '(s, sp, r, w) <- run_glue (unpack4 (exact_riemann_solution a b c d)) ;;
  store "ex_states" s ;;
  store "ex_speeds" sp ;;
  store "ex_reval" r ;;
  store "wave_types" w ;;
  store "varnames" conserved_variables ;;
  ex_states <- lookup "ex_states" ;;
  fw_states <- lookup "fw_states" ;;
  ex_speeds <- lookup "ex_speeds" ;;
  fw_speeds <- lookup "fw_speeds" ;;
  ex_reval <- lookup "ex_reval" ;;
  fw_reval <- lookup "fw_reval" ;;
  wave_types <- lookup "wave_types" ;;
  varnames <- lookup "varnames" ;;
  let contacts := ["contact"; "contact"; "contact"] in
  cell_emit
    (glue (tools_make_plot_function_call
             [ex_states; fw_states] [ex_speeds; fw_speeds]
             [ex_reval; fw_reval] (wave_types, contacts)
             ["Exact"; "$f$-wave"] "vertical" varnames)) ;;
  store "plot_function"
    (tools_make_plot_function
       [ex_states; fw_states] [ex_speeds; fw_speeds] [ex_reval; fw_reval]
       (wave_types, contacts)) ;;
  plot_function <- lookup "plot_function" ;;
  cell_emit
    (glue (interact_call (external plot_function)
             [("t", FloatSlider 0x1.999999999999ap-2 0 0x1.ccccccccccccdp-1
                      0x1.999999999999ap-4)])).

(** The four cells in the order of the notebook; a cell that raises stops
    the run. *)
Definition run_all : Cell unit :=
  data_cell ;; fwave_cell ;; fwave_plot_cell ;; comparison_cell_in_session.
End Notebook.

Arguments glue {Obj}.
Arguments riemann_solution_call {Obj}.
Arguments fwave_make_plot_function_call {Obj}.
Arguments no_globals {Obj}.
Arguments assign {Obj}.
Arguments cell_ret {Obj A}.
Arguments cell_bind {Obj A B}.
Arguments lookup {Obj}.
Arguments store {Obj}.
Arguments cell_emit {Obj}.
Arguments run_glue {Obj A}.
Arguments unpack3 {Obj}.
Arguments data_cell {Obj}.
Arguments fwave_cell {Obj}.
Arguments fwave_plot_cell {Obj}.
Arguments comparison_cell_in_session {Obj}.
Arguments run_all {Obj}.

(** Sample objects and collaborators to run the cells with: arrays and
    dictionaries by their contents, anything else by a name; an exact solver
    that returns four named results, an f-wave solver that returns three. *)
Inductive sample : Type :=
| Arr (values : list float)
| Dict (items : list (string * string))
| Named (name : string).

Definition sample_exact (q_l q_r aux_l aux_r : sample) : list sample :=
  [Named "states"; Named "speeds"; Named "reval"; Named "wave_types"].

Definition sample_fwave (solver q_l q_r aux_l aux_r problem_data : sample)
    : list sample :=
  [Named "fw_states"; Named "fw_speeds"; Named "fw_reval"].

Definition sample_axes (states speeds reval wave_types : sample) (t : float)
    : list sample :=
  [Named "ax0"; Named "ax1"; Named "ax2"; Named "ax3"].

(** A session in which only the data cell's four names are defined. *)
Definition data_only : Globals sample :=
  assign "q_r" (Arr [0; 0]%float)
    (assign "q_l" (Arr [0x1.0cccccccccccdp+1; 0]%float)
       (assign "aux_r" (Arr [1; 2; 1]%float)
          (assign "aux_l" (Arr [1; 5; 1]%float) no_globals))).

(** A session in which the f-wave cell has run as well. *)
Definition data_and_fwave : Globals sample :=
  assign "fw_reval" (Named "fw_reval")
    (assign "fw_speeds" (Named "fw_speeds")
       (assign "fw_states" (Named "fw_states") data_only)).

(** ** Binary64 facts used below *)

Section Binary64.
Local Open Scope float_scope.

Lemma Prim2SF_zero : Prim2SF 0 = S754_zero false.
Proof. reflexivity. Qed.

Lemma is_nan_spec (x : float) : is_nan x = true <-> Prim2SF x = S754_nan.
Proof.
  unfold is_nan. rewrite eqb_spec.
  destruct (Prim2SF x) as [s | s | | s m e] eqn:E; cbn.
  - split; discriminate.
  - destruct s; cbn; split; discriminate.
  - split; reflexivity.
  - unfold SFeqb, SFcompare.
    destruct s; rewrite Z.compare_refl, Pos.compare_cont_refl; cbn;
      split; discriminate.
Qed.

Lemma negative_spec (x : float) :
  (x <? 0) = true ->
  Prim2SF x = S754_infinity true \/ exists m e, Prim2SF x = S754_finite true m e.
Proof.
  rewrite ltb_spec, Prim2SF_zero.
  destruct (Prim2SF x) as [s | s | | s m e]; cbn; try discriminate.
  - destruct s; [now left | discriminate].
  - destruct s; [right; eauto | discriminate].
Qed.

Lemma sqrt_negative_nan (x : float) :
  (x <? 0) = true -> is_nan (PrimFloat.sqrt x) = true.
Proof.
  intros Hx. apply is_nan_spec. rewrite sqrt_spec.
  destruct (negative_spec x Hx) as [E | (m & e & E)]; rewrite E; reflexivity.
Qed.

Lemma opp_involutive (x : float) : - - x = x.
Proof.
  apply Prim2SF_inj. rewrite !opp_spec.
  destruct (Prim2SF x) as [s | s | | s m e]; cbn;
    now rewrite ?negb_involutive.
Qed.

Lemma opp_nan (x : float) : is_nan x = true -> is_nan (- x) = true.
Proof.
  rewrite !is_nan_spec, opp_spec. intros ->. reflexivity.
Qed.

Lemma SFsqrt_not_negative (f : spec_float) :
  SF_not_negative (SF64sqrt f) = true.
Proof.
  destruct f as [s | [|] | | [|] m e]; try reflexivity.
  unfold SF64sqrt, SFsqrt.
  destruct (SFsqrt_core_binary prec emax (Z.pos m) e) as [[mz ez] lz].
  unfold binary_round_aux.
  destruct (shr_fexp prec emax mz ez lz) as [mrs e'].
  destruct (shr_fexp prec emax _ e' loc_Exact) as [mrs' e''].
  destruct (shr_m mrs'); try reflexivity.
  destruct (Z.leb e'' _); reflexivity.
Qed.

Lemma opp_of_not_negative (y : float) :
  SF_not_negative (Prim2SF y) = true -> (0 <? - y) = false.
Proof.
  rewrite ltb_spec, opp_spec, Prim2SF_zero.
  destruct (Prim2SF y) as [s | [|] | | [|] m e]; cbn; congruence.
Qed.

Lemma opp_opp_of_not_negative (y : float) :
  SF_not_negative (Prim2SF y) = true -> (- - y <? 0) = false.
Proof.
  rewrite ltb_spec, !opp_spec, Prim2SF_zero.
  destruct (Prim2SF y) as [s | [|] | | [|] m e]; cbn; congruence.
Qed.

(** In binary64, on every input whatsoever, [lambda1] is never above zero
    and [lambda2] never below it: each is a zero, a value of the stated
    sign, or nan. *)
Lemma binary64_speed_signs (q : State float) (xi : float) (aux : Aux float) :
  (0 <? lambda1 q xi aux) = false /\ (lambda2 q xi aux <? 0) = false.
Proof.
  destruct aux as [[rho K1] K2]. unfold lambda2, lambda1. cbn.
  split.
  - apply opp_of_not_negative. rewrite sqrt_spec. apply SFsqrt_not_negative.
  - apply opp_opp_of_not_negative. rewrite sqrt_spec. apply SFsqrt_not_negative.
Qed.

(** The notebook's own data, [aux_l = (1, 5, 1)], [aux_r = (1, 2, 1)],
    [q_l = (2.1, 0)], [q_r = (0, 0)], evaluated as the code would. *)
Example lambda1_q_l :
  lambda1 (0x1.0cccccccccccdp+1, 0) 0 (1, 5, 1) = (-0x1.843e43d85e5b1p+1).
Proof. reflexivity. Qed.

Example lambda2_q_r : lambda2 (0, 0) 0 (1, 2, 1) = 0x1.6a09e667f3bcdp+0.
Proof. reflexivity. Qed.
End Binary64.

(** ** Binary64: the speeds of valid parameters are numbers of the stated sign *)

Section Binary64Rounding.
Variables prec emax : Z.

Lemma shr_1_nonneg (mrs : shr_record) :
  (0 <= shr_m mrs)%Z -> (0 <= shr_m (shr_1 mrs))%Z.
Proof.
  destruct mrs as [m r s]. cbn.
  destruct m as [|[p|p|]|p]; cbn; intros H; try lia.
Qed.

Lemma iter_shr_1_nonneg (p : positive) (mrs : shr_record) :
  (0 <= shr_m mrs)%Z -> (0 <= shr_m (iter_pos shr_1 p mrs))%Z.
Proof.
  revert mrs. induction p as [p IH | p IH |]; intros mrs H; cbn.
  - apply IH, IH, shr_1_nonneg, H.
  - apply IH, IH, H.
  - apply shr_1_nonneg, H.
Qed.

Lemma shr_fexp_nonneg (m e : Z) (l : location) :
  (0 <= m)%Z -> (0 <= shr_m (fst (shr_fexp prec emax m e l)))%Z.
Proof.
  intros H. unfold shr_fexp, shr.
  assert (H0 : (0 <= shr_m (shr_record_of_loc m l))%Z)
    by (destruct l as [|[| |]]; exact H).
  destruct (fexp prec emax (Zdigits2 m + e) - e)%Z; cbn [fst]; try exact H0.
  apply iter_shr_1_nonneg, H0.
Qed.

Lemma round_nearest_even_nonneg (m : Z) (l : location) :
  (0 <= m)%Z -> (0 <= round_nearest_even m l)%Z.
Proof.
  intros H. destruct l as [|[| |]]; cbn; try lia.
  destruct (Z.even m); lia.
Qed.

(** Rounding a non-negative mantissa with a clear sign bit gives a zero, a
    finite value or an infinity, never nan, and keeps the sign bit. *)
Lemma binary_round_aux_number (m e : Z) (l : location) :
  (0 <= m)%Z ->
  SF_number_not_negative (binary_round_aux prec emax false m e l) = true.
Proof.
  intros H. unfold binary_round_aux.
  pose proof (shr_fexp_nonneg m e l H) as H1.
  destruct (shr_fexp prec emax m e l) as [mrs e']. cbn [fst] in H1.
  pose proof (shr_fexp_nonneg _ e' loc_Exact
                (round_nearest_even_nonneg _ (loc_of_shr_record mrs) H1)) as H2.
  destruct (shr_fexp prec emax _ e' loc_Exact) as [mrs' e'']. cbn [fst] in H2.
  destruct (shr_m mrs'); try reflexivity.
  - destruct (Z.leb e'' _); reflexivity.
  - lia.
Qed.

Lemma SFsqrt_number (x : spec_float) :
  SF_number_not_negative x = true ->
  SF_number_not_negative (SFsqrt prec emax x) = true.
Proof.
  destruct x as [s | [|] | | [|] m e]; try discriminate; try reflexivity.
  intros _. unfold SFsqrt, SFsqrt_core_binary.
  match goal with |- context [Z.sqrtrem ?a] =>
    pose proof (Z.sqrtrem_sqrt a) as Hs; pose proof (Z.sqrt_nonneg a) as Hn;
    destruct (Z.sqrtrem a) as [r0 r1] end.
  cbn [fst] in Hs. subst r0.
  apply binary_round_aux_number, Hn.
Qed.

Lemma SFdiv_number (x y : spec_float) (m : positive) (e : Z) :
  SF_number_not_negative x = true -> y = S754_finite false m e ->
  SF_number_not_negative (SFdiv prec emax x y) = true.
Proof.
  intros Hx ->.
  destruct x as [s | [|] | | [|] mx ex]; try discriminate.
  - destruct s; reflexivity.
  - reflexivity.
  - unfold SFdiv, SFdiv_core_binary.
    match goal with |- context [Z.div_eucl ?a ?b] =>
      assert (Hq : (0 <= a / b)%Z);
      [ apply Z.div_pos; [|lia] | unfold Z.div in Hq;
        destruct (Z.div_eucl a b) as [q r] ]
    end.
    + destruct (ex - e - _)%Z; try lia. apply Z.shiftl_nonneg. lia.
    + cbn [xorb]. apply binary_round_aux_number, Hq.
Qed.
End Binary64Rounding.

Section Binary64Speeds.
Local Open Scope float_scope.

Lemma positive_finite_spec (x : float) :
  (0 <? x) = true -> (x <? infinity) = true ->
  exists m e, Prim2SF x = S754_finite false m e.
Proof.
  rewrite !ltb_spec, Prim2SF_zero.
  change (Prim2SF infinity) with (S754_infinity false).
  destruct (Prim2SF x) as [s | [|] | | [|] m e]; cbn; try discriminate.
  intros _ _. eauto.
Qed.

Lemma not_negative_number_spec (x : float) :
  (0 <=? x) = true -> SF_number_not_negative (Prim2SF x) = true.
Proof.
  rewrite leb_spec, Prim2SF_zero.
  destruct (Prim2SF x) as [s | [|] | | [|] m e]; cbn; congruence.
Qed.

Lemma opp_number_below (y : float) :
  SF_number_not_negative (Prim2SF y) = true -> (- y <=? 0) = true.
Proof.
  rewrite leb_spec, opp_spec, Prim2SF_zero.
  destruct (Prim2SF y) as [s | [|] | | [|] m e]; cbn; congruence.
Qed.

Lemma opp_opp_number_above (y : float) :
  SF_number_not_negative (Prim2SF y) = true -> (0 <=? - - y) = true.
Proof.
  rewrite leb_spec, !opp_spec, Prim2SF_zero.
  destruct (Prim2SF y) as [s | [|] | | [|] m e]; cbn; congruence.
Qed.

(** In binary64, for a finite density above zero and a computed stress
    slope [K1 + 2*K2*q[0]] not below zero, [lambda1] is a number at most
    zero and [lambda2] a number at least zero. *)
Lemma binary64_valid_speed_signs (q : State float) (xi rho K1 K2 : float) :
  (0 <? rho) = true -> (rho <? infinity) = true ->
  (0 <=? dsigma (fst q) K1 K2) = true ->
  (lambda1 q xi (rho, K1, K2) <=? 0) = true /\
  (0 <=? lambda2 q xi (rho, K1, K2)) = true.
Proof.
  intros Hpos Hfin Hslope.
  destruct (positive_finite_spec rho Hpos Hfin) as (m & e & Hrho).
  apply not_negative_number_spec in Hslope.
  assert (Hroot : SF_number_not_negative
                    (Prim2SF (PrimFloat.sqrt (dsigma (fst q) K1 K2 / rho)))
                  = true).
  { rewrite sqrt_spec, div_spec. apply SFsqrt_number.
    apply SFdiv_number with (m := m) (e := e); assumption. }
  unfold lambda2, lambda1. cbn [neg sqrt div Num_float]. split.
  - apply opp_number_below, Hroot.
  - apply opp_opp_number_above, Hroot.
Qed.

Example binary64_valid_speed_signs_q_l :
  (lambda1 (0x1.0cccccccccccdp+1, 0) 0 (1, 5, 1) <=? 0) = true /\
  (0 <=? lambda2 (0x1.0cccccccccccdp+1, 0) 0 (1, 5, 1)) = true.
Proof.
  apply binary64_valid_speed_signs; reflexivity.
Qed.
End Binary64Speeds.

(** ** No validity check in the characteristic speeds *)

(** C4, counterexample.  With [q = (-1, 0)] and [aux = (1, 1, 1)] the
    stress slope [K1 + 2*K2*q[0]] is [-1], not positive, and yet both speeds
    come back as ordinary return values, and those values are nan. *)
Lemma speeds_of_negative_slope_are_nan :
  (dsigma (-1) 1 1 <=? 0)%float = true /\
  is_nan (lambda1 (-1, 0)%float 0%float (1, 1, 1)%float) = true /\
  is_nan (lambda2 (-1, 0)%float 0%float (1, 1, 1)%float) = true.
Proof. repeat split; reflexivity. Qed.

(** C4, as amended.  [lambda1] and [lambda2] carry no validity check and
    report no fault: they return a binary64 value on every input, and
    whenever the quotient [(K1 + 2*K2*q[0]) / rho] they compute is negative
    that value is nan. *)
Theorem speeds_unchecked_nan (q : State float) (xi rho K1 K2 : float) :
  (dsigma (fst q) K1 K2 / rho <? 0)%float = true ->
  is_nan (lambda1 q xi (rho, K1, K2)) = true /\
  is_nan (lambda2 q xi (rho, K1, K2)) = true.
Proof.
  intros Hneg.
  assert (H1 : is_nan (lambda1 q xi (rho, K1, K2)) = true).
  { unfold lambda1. cbn [neg sqrt div Num_float].
    apply opp_nan, sqrt_negative_nan. exact Hneg. }
  split; [exact H1|].
  unfold lambda2. cbn [neg Num_float]. apply opp_nan. exact H1.
Qed.

Lemma speeds_unchecked_nan_witness :
  (dsigma (-1) 1 1 / 1 <? 0)%float = true /\
  is_nan (lambda1 (-1, 0)%float 0%float (1, 1, 1)%float) = true /\
  is_nan (lambda2 (-1, 0)%float 0%float (1, 1, 1)%float) = true.
Proof.
  split; [reflexivity|].
  apply (speeds_unchecked_nan (-1, 0)%float 0%float 1%float 1%float 1%float).
  reflexivity.
Defined.

(** Other parameters without a positive slope and density return silently
    as well: a zero slope gives the speed [-0], a zero density gives
    [-infinity]. *)
Example lambda1_zero_slope :
  lambda1 (-0.5, 0)%float 0%float (1, 1, 1)%float = (-0)%float.
Proof. reflexivity. Qed.

Example lambda1_zero_density :
  lambda1 (0, 0)%float 0%float (0, 1, 1)%float = neg_infinity.
Proof. reflexivity. Qed.

(** ** The characteristic speeds over the reals *)

Section RealSpeeds.
Local Open Scope R_scope.

Lemma dsigma_R (eps K1 K2 : R) : dsigma eps K1 K2 = K1 + 2 * K2 * eps.
Proof. reflexivity. Qed.

Lemma lambda1_R (q : State R) (xi rho K1 K2 : R) :
  lambda1 q xi (rho, K1, K2) = - R_sqrt.sqrt ((K1 + 2 * K2 * fst q) / rho).
Proof. reflexivity. Qed.

Lemma lambda2_R (q : State R) (xi rho K1 K2 : R) :
  lambda2 q xi (rho, K1, K2) = R_sqrt.sqrt ((K1 + 2 * K2 * fst q) / rho).
Proof. unfold lambda2. cbn [neg Num_R]. rewrite lambda1_R. apply Ropp_involutive. Qed.

Lemma slope_over_rho_nonneg (eps rho K1 K2 : R) :
  0 < rho -> 0 <= K1 + 2 * K2 * eps -> 0 <= (K1 + 2 * K2 * eps) / rho.
Proof.
  intros Hrho Hs. unfold Rdiv. apply Rmult_le_pos; [assumption|].
  left. now apply Rinv_0_lt_compat.
Qed.

Lemma slope_over_rho_increasing (e1 e2 rho K1 K2 : R) :
  0 < rho -> 0 < K2 -> e1 < e2 ->
  (K1 + 2 * K2 * e1) / rho < (K1 + 2 * K2 * e2) / rho.
Proof.
  intros Hrho HK2 He. unfold Rdiv.
  apply Rmult_lt_compat_r; [now apply Rinv_0_lt_compat|]. nra.
Qed.

(** The family-1 speed strictly falls as the strain grows. *)
Lemma lambda1_decreasing (e1 e2 m1 m2 xi rho K1 K2 : R) :
  0 < rho -> 0 < K2 -> 0 <= K1 + 2 * K2 * e1 -> e1 < e2 ->
  lambda1 (e2, m2) xi (rho, K1, K2) < lambda1 (e1, m1) xi (rho, K1, K2).
Proof.
  intros Hrho HK2 H1 He. rewrite !lambda1_R. cbn [fst].
  apply Ropp_lt_contravar, sqrt_lt_1_alt. split.
  - now apply slope_over_rho_nonneg.
  - now apply slope_over_rho_increasing.
Qed.
End RealSpeeds.






(** C9. For every state [q], similarity variable [xi] and parameters [aux],
    over any numbers the code is run with, [lambda2 q xi aux] is the
    negation of [lambda1 q xi aux]; over the reals and in binary64 alike
    negating twice gives the number back, so [lambda1] is in turn the
    negation of [lambda2]. *)
Theorem lambda2_is_neg_lambda1 :
  (forall (T : Type) (N : Num T) (q : State T) (xi : T) (aux : Aux T),
      lambda2 q xi aux = neg (lambda1 q xi aux)) /\
  (forall (q : State R) (xi : R) (aux : Aux R),
      lambda2 q xi aux = (- lambda1 q xi aux)%R /\
      lambda1 q xi aux = (- lambda2 q xi aux)%R) /\
  (forall (q : State float) (xi : float) (aux : Aux float),
      lambda2 q xi aux = (- lambda1 q xi aux)%float /\
      lambda1 q xi aux = (- lambda2 q xi aux)%float).
Proof.
  split; [reflexivity|]. split; intros q xi aux; (split; [reflexivity|]).
  - unfold lambda2. cbn [neg Num_R]. now rewrite Ropp_involutive.
  - unfold lambda2. cbn [neg Num_float]. now rewrite opp_involutive.
Qed.

(** ** The plotting glue: what is called, and with what *)

Section GlueFacts.
Variable Obj : Type.
Variable exact_riemann_solution : Obj -> Obj -> Obj -> Obj -> list Obj.
Variable plot_riemann : Obj -> Obj -> Obj -> Obj -> float -> list Obj.
Variable tools_make_plot_function :
  list Obj -> list Obj -> list Obj -> Obj * list string -> Obj.
Variable conserved_variables : Obj.

Lemma calls_bind {A B : Type} (m : Py Obj A) (k : A -> Py Obj B) :
  calls (bind m k)
  = calls m ++ match outcome m with
               | inr a => calls (k a)
               | inl _ => []
               end.
Proof.
  destruct m as [log [e | a]]; cbn.
  - now rewrite app_nil_r.
  - destruct (k a) as [log' r]. reflexivity.
Qed.

Lemma outcome_bind {A B : Type} (m : Py Obj A) (k : A -> Py Obj B) :
  outcome (bind m k)
  = match outcome m with
    | inr a => outcome (k a)
    | inl e => inl e
    end.
Proof.
  destruct m as [log [e | a]]; cbn.
  - reflexivity.
  - destruct (k a) as [log' r]. reflexivity.
Qed.

Lemma unpack4_exactly_four (seq : list Obj) :
  List.length seq = 4%nat <-> exists a b c d, unpack4 seq = ret (a, b, c, d).
Proof.
  split.
  - destruct seq as [|a [|b [|c [|d [|e seq]]]]]; try discriminate.
    intros _. now exists a, b, c, d.
  - intros (a & b & c & d & H).
    destruct seq as [|a' [|b' [|c' [|d' [|e seq]]]]]; try discriminate.
    reflexivity.
Qed.

Lemma unpack4_other_length (seq : list Obj) :
  List.length seq <> 4%nat -> unpack4 seq = raise ValueError.
Proof.
  destruct seq as [|a [|b [|c [|d [|e seq]]]]]; try reflexivity.
  intros H. now contradiction H.
Qed.

(** [make_plot_function] calls the solver once, with its own four
    arguments in their order, whatever comes back. *)
Lemma make_plot_function_calls (q_l q_r aux_l aux_r : Obj) :
  calls (make_plot_function exact_riemann_solution plot_riemann
           q_l q_r aux_l aux_r)
  = [exact_riemann_solution_call q_l q_r aux_l aux_r].
Proof.
  unfold make_plot_function.
  destruct (exact_riemann_solution q_l q_r aux_l aux_r)
    as [|a [|b [|c [|d [|e seq]]]]]; reflexivity.
Qed.

(** It returns the plotting closure when the solver's result unpacks into
    exactly four values, bound in the order states, speeds, reval,
    wave_types; any other length raises [ValueError]. *)
Lemma make_plot_function_outcome (q_l q_r aux_l aux_r : Obj) :
  outcome (make_plot_function exact_riemann_solution plot_riemann
             q_l q_r aux_l aux_r)
  = match exact_riemann_solution q_l q_r aux_l aux_r with
    | [states; speeds; reval; wave_types] =>
        inr (plot_function plot_riemann states speeds reval wave_types
               q_l q_r aux_l aux_r)
    | _ => inl ValueError
    end.
Proof.
  unfold make_plot_function.
  destruct (exact_riemann_solution q_l q_r aux_l aux_r)
    as [|a [|b [|c [|d [|e seq]]]]]; reflexivity.
Qed.

(** The closure hands the four values on to [plot_riemann] in that same
    order, before anything else. *)
Lemma plot_function_first_call
    (states speeds reval wave_types q_l q_r aux_l aux_r : Obj)
    (t : float) (which_char : option Z) :
  hd_error (calls (plot_function plot_riemann states speeds reval wave_types
                     q_l q_r aux_l aux_r t which_char))
  = Some (plot_riemann_call states speeds reval wave_types t 0 true
            ["Strain"; "Momentum"]%string).
Proof.
  unfold plot_function. rewrite calls_bind. reflexivity.
Qed.

(** The comparison cell unpacks the solver's result in the same way and
    passes the four values, each paired with its f-wave counterpart, to
    [riemann_tools.make_plot_function]. *)
Lemma comparison_cell_run
    (q_l q_r aux_l aux_r fw_states fw_speeds fw_reval : Obj) :
  comparison_cell exact_riemann_solution tools_make_plot_function
    conserved_variables q_l q_r aux_l aux_r fw_states fw_speeds fw_reval
  = match exact_riemann_solution q_l q_r aux_l aux_r with
    | [ex_states; ex_speeds; ex_reval; wave_types] =>
        let contacts := ["contact"; "contact"; "contact"]%string in
        ([exact_riemann_solution_call q_l q_r aux_l aux_r;
          tools_make_plot_function_call
            [ex_states; fw_states] [ex_speeds; fw_speeds]
            [ex_reval; fw_reval] (wave_types, contacts)
            ["Exact"; "$f$-wave"]%string "vertical" conserved_variables;
          interact_call
            (external
               (tools_make_plot_function
                  [ex_states; fw_states] [ex_speeds; fw_speeds]
                  [ex_reval; fw_reval] (wave_types, contacts)))
            [("t", FloatSlider 0x1.999999999999ap-2 0 0x1.ccccccccccccdp-1
                     0x1.999999999999ap-4)]%string],
         inr tt)
    | _ => ([exact_riemann_solution_call q_l q_r aux_l aux_r], inl ValueError)
    end.
Proof.
  unfold comparison_cell.
  destruct (exact_riemann_solution q_l q_r aux_l aux_r)
    as [|a [|b [|c [|d [|e seq]]]]]; reflexivity.
Qed.

Lemma plot_function_no_solver_call
    (states speeds reval wave_types q_l q_r aux_l aux_r : Obj)
    (t : float) (which_char : option Z) :
  solver_calls (calls (plot_function plot_riemann states speeds reval
                         wave_types q_l q_r aux_l aux_r t which_char)) = [].
Proof.
  unfold plot_function, item.
  destruct which_char as [[|[p|[p|p|]|]|p]|];
    destruct (plot_riemann states speeds reval wave_types t)
      as [|x0 [|x1 [|x2 [|x3 ax]]]]; reflexivity.
Qed.
End GlueFacts.

Section GlueRuns.
Local Open Scope string_scope.

(** Two runs of the plotting closure, with strings standing for the
    objects: with four axes and family 1 selected, and with too few axes. *)
Example plot_function_family_1 :
  plot_function (fun _ _ _ _ _ => ["ax0"; "ax1"; "ax2"; "ax3"])
    "states" "speeds" "reval" "wave_types" "q_l" "q_r" "aux_l" "aux_r"
    0x1p-1%float (Some 1%Z)
  = ([plot_riemann_call "states" "speeds" "reval" "wave_types" 0x1p-1%float
        0 true ["Strain"; "Momentum"];
      plot_characteristics_call "reval" lambda1 ("aux_l", "aux_r") "ax0";
      phase_plane_plot_call "q_l" "q_r" "aux_l" "aux_r" "ax3";
      show_call],
     inr tt).
Proof. reflexivity. Qed.

Example plot_function_too_few_axes :
  plot_function (fun _ _ _ _ _ => ["ax0"; "ax1"])
    "states" "speeds" "reval" "wave_types" "q_l" "q_r" "aux_l" "aux_r"
    0%float (Some 2%Z)
  = ([plot_riemann_call "states" "speeds" "reval" "wave_types" 0%float
        0 true ["Strain"; "Momentum"];
      plot_characteristics_call "reval" lambda2 ("aux_l", "aux_r") "ax0"],
     inl IndexError).
Proof. reflexivity. Qed.

(** The notebook's own call, [plot_riemann_nonlinear_elasticity(q_l, q_r,
    aux_l, aux_r)], with a solver that returns four objects. *)
Example notebook_call :
  calls (plot_riemann_nonlinear_elasticity
           (fun _ _ _ _ => ["states"; "speeds"; "reval"; "wave_types"])
           (fun _ _ _ _ _ => [])
           "q_l" "q_r" "aux_l" "aux_r")
  = [exact_riemann_solution_call "q_l" "q_r" "aux_l" "aux_r";
     interact_call
       (closure (plot_function (fun _ _ _ _ _ => [])
                   "states" "speeds" "reval" "wave_types"
                   "q_l" "q_r" "aux_l" "aux_r"))
       [("t", FloatSlider 0 0 1 0x1.999999999999ap-4);
        ("which_char",
         Dropdown [None; Some 1%Z; Some 2%Z] "Show characteristics")]].
Proof. reflexivity. Qed.
End GlueRuns.

(** C10. For all arguments [a], [b], [c], [d],
    [plot_riemann_nonlinear_elasticity a b c d] passes them on to the solver
    unchanged and in position, as [q_l = a], [q_r = b], [aux_l = c],
    [aux_r = d]: that is its first call to a collaborator and the only
    solver call it makes, and the closure it hands to [interact] passes the
    same four on to the phase-plane plot.  So the parameters named [rho_l],
    [rho_r] carry the left and right states and [v_l], [v_r] the left and
    right material triples. *)
Theorem plot_riemann_nonlinear_elasticity_forwards
    (Obj : Type)
    (exact_riemann_solution : Obj -> Obj -> Obj -> Obj -> list Obj)
    (plot_riemann : Obj -> Obj -> Obj -> Obj -> float -> list Obj)
    (a b c d : Obj) :
  let run := plot_riemann_nonlinear_elasticity exact_riemann_solution
               plot_riemann a b c d in
  hd_error (calls run) = Some (exact_riemann_solution_call a b c d) /\
  solver_calls (calls run) = [(a, b, c, d)] /\
  run = bind (make_plot_function exact_riemann_solution plot_riemann a b c d)
          (fun plot_function =>
             emit (interact_call (closure plot_function)
                     [("t", FloatSlider 0 0 1 0x1.999999999999ap-4);
                      ("which_char",
                       Dropdown [None; Some 1%Z; Some 2%Z]
                         "Show characteristics")]%string)).
Proof.
  cbv zeta. unfold plot_riemann_nonlinear_elasticity, make_plot_function.
  destruct (exact_riemann_solution a b c d)
    as [|x0 [|x1 [|x2 [|x3 [|x4 seq]]]]]; repeat split; reflexivity.
Qed.

(** ** The exact solver: interface conditions and the shape of the result *)

Module ExactSolverFacts.
Import ExactSolver.
Local Open Scope R_scope.

Lemma within_spec (t : R) (y : R * R) :
  within t y = true <-> Rabs (fst y) < t /\ Rabs (snd y) < t.
Proof.
  unfold within.
  destruct (Rlt_dec (Rabs (fst y)) t), (Rlt_dec (Rabs (snd y)) t);
    split; try discriminate; tauto.
Qed.

Lemma try_points_no_silent_failure (t : R) (pts : list (R * R)) :
  no_silent_failure (try_points t pts).
Proof.
  intros F x0 x. cbn [find_root tol try_points]. intros Hfind.
  apply find_some in Hfind. now apply within_spec.
Qed.

Lemma valid_side_density (q : State R) (rho K1 K2 : R) :
  valid_side q (rho, K1, K2) = true -> 0 < rho.
Proof.
  unfold valid_side. destruct (Rlt_dec 0 rho); [easy | discriminate].
Qed.

(** What a successful solve went through. *)
Lemma solve_success (rf : RootFinder) (q_l q_r : State R)
    (aux_l aux_r : Aux R) (sol : RiemannSolution) :
  solve rf q_l q_r aux_l aux_r = inr sol ->
  valid_side q_l aux_l = true /\ valid_side q_r aux_r = true /\
  exists eps_star_l eps_star_r,
    find_root rf (coupled_system q_l q_r aux_l aux_r) (seed q_l q_r)
      = Some (eps_star_l, eps_star_r) /\
    sol = assemble q_l q_r aux_l aux_r eps_star_l eps_star_r.
Proof.
  unfold solve.
  destruct (valid_side q_l aux_l); [|discriminate].
  destruct (valid_side q_r aux_r); [|discriminate]. cbn [andb negb].
  destruct (degenerate_side aux_l || degenerate_side aux_r); [discriminate|].
  destruct (find_root rf _ _) as [[el er]|]; [|discriminate].
  intros [= <-]. repeat split. now exists el, er.
Qed.

Lemma assemble_states (q_l q_r : State R) (rho_l K1_l K2_l rho_r K1_r K2_r : R)
    (el er : R) :
  let aux_l := (rho_l, K1_l, K2_l) in
  let aux_r := (rho_r, K1_r, K2_r) in
  let u := integral_curve_1 q_l aux_l el in
  states (assemble q_l q_r aux_l aux_r el er)
  = [q_l; (el, rho_l * u); (er, rho_r * u); q_r].
Proof. reflexivity. Qed.

Lemma velocity_of_momentum (eps u rho K1 K2 : R) :
  0 < rho -> velocity (eps, rho * u) (rho, K1, K2) = u.
Proof.
  intros Hrho. unfold velocity. cbn [snd div Num_R]. field. lra.
Qed.

Lemma no_change_over (x d : R) : (x - x) / d = 0.
Proof. unfold Rdiv. ring. Qed.

(** A stationary contact between two materials: strain 1 on the left of
    material (1, 5, 1), strain 2 on the right of material (2, 1, 1), both
    moving at velocity 1.  The stresses are equal (6 on each side), so the
    input states themselves solve the system; the seed does not. *)
Lemma solve_contact :
  solve contact_finder (1, 1) (2, 2) (1, 5, 1) (2, 1, 1)
  = inr (assemble (1, 1) (2, 2) (1, 5, 1) (2, 1, 1) 1 2).
Proof.
  unfold solve, valid_side, degenerate_side, dstress, dsigma.
  cbn [fst snd add mul two Num_R].
  destruct (Rlt_dec 0 1) as [_|n]; [|exfalso; lra].
  destruct (Rlt_dec 0 2) as [_|n]; [|exfalso; lra].
  destruct (Rlt_dec 0 (5 + 2 * 1 * 1)) as [_|n]; [|exfalso; lra].
  destruct (Rlt_dec 0 (1 + 2 * 1 * 2)) as [_|n]; [|exfalso; lra].
  destruct (Req_dec_T 1 0) as [e|_]; [exfalso; lra|].
  cbn [andb negb orb find_root contact_finder try_points find].
  set (F := coupled_system (1, 1) (2, 2) (1, 5, 1) (2, 1, 1)).
  assert (Hseed : within (1 / 1000) (F (seed (1, 1) (2, 2))) = false).
  { destruct (within (1 / 1000) (F (seed (1, 1) (2, 2)))) eqn:E; [|reflexivity].
    apply within_spec in E. destruct E as [_ E]. exfalso. revert E.
    unfold F, coupled_system, seed, stress, sigma.
    cbn [fst snd add mul Num_R].
    replace (5 * ((1 + 2) / 2) + 1 * ((1 + 2) / 2 * ((1 + 2) / 2))
             - (1 * ((1 + 2) / 2) + 1 * ((1 + 2) / 2 * ((1 + 2) / 2))))
      with 6 by lra.
    rewrite Rabs_pos_eq; lra. }
  assert (Hroot : within (1 / 1000) (F (1, 2)) = true).
  { apply within_spec.
    unfold F, coupled_system, integral_curve_1, integral_curve_2, velocity,
      stress, sigma, dsigma.
    cbn [fst snd add mul div two Num_R].
    rewrite !no_change_over.
    match goal with
    | |- Rabs ?a < _ /\ _ => replace a with 0 by lra
    end.
    match goal with
    | |- _ /\ Rabs ?a < _ => replace a with 0 by ring
    end.
    rewrite Rabs_R0. lra. }
  rewrite Hseed, Hroot. reflexivity.
Qed.

(** At that contact the strain and the momentum jump across the interface:
    1 against 2, each. *)
Lemma contact_velocity : integral_curve_1 (1, 1) (1, 5, 1) 1 = 1.
Proof.
  unfold integral_curve_1, velocity. cbn [fst snd div Num_R].
  rewrite no_change_over. lra.
Qed.

Lemma contact_star_states :
  states (assemble (1, 1) (2, 2) (1, 5, 1) (2, 1, 1) 1 2)
  = [(1, 1); (1, 1); (2, 2); (2, 2)].
Proof.
  rewrite assemble_states, contact_velocity.
  replace (1 * 1) with 1 by lra. replace (2 * 1) with 2 by lra.
  reflexivity.
Qed.
End ExactSolverFacts.





(** ** Further properties of the helpers in binary64 *)

Section Binary64Extra.
Local Open Scope float_scope.

Lemma is_nan_SF (x : float) : is_nan x = SF_is_nan (Prim2SF x).
Proof.
  destruct (is_nan x) eqn:E.
  - apply is_nan_spec in E. now rewrite E.
  - destruct (Prim2SF x) eqn:F; try reflexivity.
    apply is_nan_spec in F. congruence.
Qed.

Lemma is_nan_opp (x : float) : is_nan (- x) = is_nan x.
Proof.
  rewrite !is_nan_SF, opp_spec. now destruct (Prim2SF x).
Qed.

Lemma is_nan_sqrt (x : float) :
  is_nan (PrimFloat.sqrt x) = is_nan x || (x <? 0).
Proof.
  rewrite !is_nan_SF, sqrt_spec, ltb_spec, Prim2SF_zero.
  destruct (Prim2SF x) as [s | [|] | | [|] m e] eqn:E; try reflexivity.
  pose proof (SFsqrt_number prec emax (S754_finite false m e) eq_refl) as H.
  unfold SF64sqrt. cbn [SF_is_nan orb].
  destruct (SFsqrt prec emax (S754_finite false m e)); try discriminate;
    reflexivity.
Qed.

Lemma leb_zero_opp_sqrt (x : float) :
  (- PrimFloat.sqrt x <=? 0) = negb (is_nan (- PrimFloat.sqrt x)).
Proof.
  rewrite is_nan_SF, leb_spec, opp_spec, sqrt_spec, Prim2SF_zero.
  pose proof (SFsqrt_not_negative (Prim2SF x)) as H.
  destruct (SF64sqrt (Prim2SF x)) as [s | [|] | | [|] m e];
    cbn in *; congruence.
Qed.

Lemma zero_leb_opp_opp_sqrt (x : float) :
  (0 <=? - - PrimFloat.sqrt x) = negb (is_nan (- - PrimFloat.sqrt x)).
Proof.
  rewrite is_nan_SF, leb_spec, !opp_spec, sqrt_spec, Prim2SF_zero.
  pose proof (SFsqrt_not_negative (Prim2SF x)) as H.
  destruct (SF64sqrt (Prim2SF x)) as [s | [|] | | [|] m e];
    cbn in *; congruence.
Qed.

Lemma leb_true_numbers (x y : float) :
  (x <=? y) = true -> is_nan x = false /\ is_nan y = false.
Proof.
  rewrite !is_nan_SF, leb_spec.
  destruct (Prim2SF x), (Prim2SF y); cbn; try discriminate; now split.
Qed.

Lemma add_nan_l (x y : float) : is_nan x = true -> is_nan (x + y) = true.
Proof.
  rewrite !is_nan_SF, add_spec. destruct (Prim2SF x); try discriminate.
  reflexivity.
Qed.

Lemma add_nan_r (x y : float) : is_nan y = true -> is_nan (x + y) = true.
Proof.
  rewrite !is_nan_SF, add_spec. destruct (Prim2SF y); try discriminate.
  now destruct (Prim2SF x).
Qed.

Lemma mul_nan_l (x y : float) : is_nan x = true -> is_nan (x * y) = true.
Proof.
  rewrite !is_nan_SF, mul_spec. destruct (Prim2SF x); try discriminate.
  reflexivity.
Qed.

Lemma mul_nan_r (x y : float) : is_nan y = true -> is_nan (x * y) = true.
Proof.
  rewrite !is_nan_SF, mul_spec. destruct (Prim2SF y); try discriminate.
  now destruct (Prim2SF x).
Qed.

Lemma div_nan_l (x y : float) : is_nan x = true -> is_nan (x / y) = true.
Proof.
  rewrite !is_nan_SF, div_spec. destruct (Prim2SF x); try discriminate.
  reflexivity.
Qed.

Lemma div_nan_r (x y : float) : is_nan y = true -> is_nan (x / y) = true.
Proof.
  rewrite !is_nan_SF, div_spec. destruct (Prim2SF y); try discriminate.
  now destruct (Prim2SF x).
Qed.
End Binary64Extra.

(** X1. In binary64, [lambda1] returns nan exactly when the quotient
    [dsigma(eps, K1, K2) / rho] it computes is nan or below zero, and
    [lambda2] returns nan exactly when [lambda1] does. *)
Theorem speed_is_nan_exactly (q : State float) (xi rho K1 K2 : float) :
  is_nan (lambda1 q xi (rho, K1, K2))
  = (is_nan (dsigma (fst q) K1 K2 / rho)
     || (dsigma (fst q) K1 K2 / rho <? 0))%float /\
  is_nan (lambda2 q xi (rho, K1, K2)) = is_nan (lambda1 q xi (rho, K1, K2)).
Proof.
  unfold lambda2, lambda1. cbn [neg sqrt div Num_float].
  rewrite !is_nan_opp, is_nan_sqrt. split; reflexivity.
Qed.

(** X2. In binary64, on every input, a speed that is not nan has the sign
    of its family: [lambda1 <= 0] holds exactly when [lambda1] is not nan,
    and [0 <= lambda2] exactly when [lambda2] is not nan. *)
Theorem speed_sign_unless_nan (q : State float) (xi : float) (aux : Aux float) :
  (lambda1 q xi aux <=? 0)%float = negb (is_nan (lambda1 q xi aux)) /\
  (0 <=? lambda2 q xi aux)%float = negb (is_nan (lambda2 q xi aux)).
Proof.
  destruct aux as [[rho K1] K2]. unfold lambda2, lambda1.
  cbn [neg sqrt div Num_float]. split.
  - apply leb_zero_opp_sqrt.
  - apply zero_leb_opp_opp_sqrt.
Qed.

(** X3. In binary64, a finite density above zero and a computed stress
    slope that is not below zero give speeds that are numbers: neither is
    nan, [lambda1 <= 0] and [0 <= lambda2]. *)
Theorem valid_parameters_give_numbers
    (q : State float) (xi rho K1 K2 : float) :
  (0 <? rho)%float = true -> (rho <? infinity)%float = true ->
  (0 <=? dsigma (fst q) K1 K2)%float = true ->
  is_nan (lambda1 q xi (rho, K1, K2)) = false /\
  is_nan (lambda2 q xi (rho, K1, K2)) = false /\
  (lambda1 q xi (rho, K1, K2) <=? 0)%float = true /\
  (0 <=? lambda2 q xi (rho, K1, K2))%float = true.
Proof.
  intros Hpos Hfin Hslope.
  destruct (binary64_valid_speed_signs q xi rho K1 K2 Hpos Hfin Hslope)
    as [H1 H2].
  repeat split; try assumption.
  - exact (proj1 (leb_true_numbers _ _ H1)).
  - exact (proj2 (leb_true_numbers _ _ H2)).
Qed.

Lemma valid_parameters_give_numbers_witness :
  (0 <? 1)%float = true /\ (1 <? infinity)%float = true /\
  (0 <=? dsigma 0x1.0cccccccccccdp+1 5 1)%float = true /\
  is_nan (lambda1 (0x1.0cccccccccccdp+1, 0)%float 0%float (1, 5, 1)%float)
    = false /\
  is_nan (lambda2 (0x1.0cccccccccccdp+1, 0)%float 0%float (1, 5, 1)%float)
    = false.
Proof.
  assert (H1 : (0 <? 1)%float = true) by reflexivity.
  assert (H2 : (1 <? infinity)%float = true) by reflexivity.
  assert (H3 : (0 <=? dsigma 0x1.0cccccccccccdp+1 5 1)%float = true)
    by reflexivity.
  destruct (valid_parameters_give_numbers
              (0x1.0cccccccccccdp+1, 0)%float 0%float 1%float 5%float 1%float
              H1 H2 H3) as (N1 & N2 & _).
  repeat split; assumption.
Defined.

(** X4. In binary64, a nan among the inputs that are read (the strain
    [q[0]], the density, [K1] or [K2]) comes out as nan from both speeds;
    nothing masks it. *)
Theorem nan_input_gives_nan (q : State float) (xi rho K1 K2 : float) :
  is_nan (fst q) || is_nan rho || is_nan K1 || is_nan K2 = true ->
  is_nan (lambda1 q xi (rho, K1, K2)) = true /\
  is_nan (lambda2 q xi (rho, K1, K2)) = true.
Proof.
  intros H.
  assert (Hq : is_nan (dsigma (fst q) K1 K2 / rho)%float = true).
  { unfold dsigma. cbn [add mul two Num_float].
    apply orb_true_iff in H. destruct H as [H | HK2].
    - apply orb_true_iff in H. destruct H as [H | HK1].
      + apply orb_true_iff in H. destruct H as [Heps | Hrho].
        * apply div_nan_l, add_nan_r, mul_nan_r, Heps.
        * apply div_nan_r, Hrho.
      + apply div_nan_l, add_nan_l, HK1.
    - apply div_nan_l, add_nan_r, mul_nan_l, mul_nan_r, HK2. }
  unfold lambda2, lambda1. cbn [neg sqrt div Num_float].
  rewrite !is_nan_opp, is_nan_sqrt, Hq. split; reflexivity.
Qed.

Lemma nan_input_gives_nan_witness :
  is_nan (fst (0, 0)%float) || is_nan 1%float || is_nan nan || is_nan 1%float
    = true /\
  is_nan (lambda1 (0, 0)%float 0%float (1%float, nan, 1%float)) = true /\
  is_nan (lambda2 (0, 0)%float 0%float (1%float, nan, 1%float)) = true.
Proof.
  split; [reflexivity|].
  apply (nan_input_gives_nan (0, 0)%float 0%float 1%float nan 1%float).
  reflexivity.
Defined.

(** ** Further properties of the helpers over the reals *)

Section RealExtra.
Local Open Scope R_scope.

Lemma over_rho_lt (a b rho : R) : 0 < rho -> (a / rho < b / rho <-> a < b).
Proof.
  intros Hrho. pose proof (Rinv_0_lt_compat rho Hrho) as Hinv. unfold Rdiv.
  split; intros H.
  - apply Rmult_lt_reg_r with (r := / rho); assumption.
  - apply Rmult_lt_compat_r; assumption.
Qed.

Lemma sqrt_lt_iff (x y : R) :
  0 <= x -> 0 <= y -> (R_sqrt.sqrt x < R_sqrt.sqrt y <-> x < y).
Proof.
  intros Hx Hy. split; intros H.
  - now apply sqrt_lt_0_alt.
  - apply sqrt_lt_1_alt. now split.
Qed.

Lemma speed_squared (q : State R) (xi rho K1 K2 : R) :
  0 < rho -> 0 <= K1 + 2 * K2 * fst q ->
  lambda1 q xi (rho, K1, K2) * lambda1 q xi (rho, K1, K2)
  = (K1 + 2 * K2 * fst q) / rho.
Proof.
  intros Hrho Hs. rewrite lambda1_R, Rmult_opp_opp.
  apply sqrt_sqrt. now apply slope_over_rho_nonneg.
Qed.
End RealExtra.







(** ** Further properties of the plotting glue *)

Section GlueExtra.
Variable Obj : Type.
Variable exact_riemann_solution : Obj -> Obj -> Obj -> Obj -> list Obj.
Variable plot_riemann : Obj -> Obj -> Obj -> Obj -> float -> list Obj.

Lemma make_plot_function_closure (a b c d : Obj)
    (pf : float -> option Z -> Py Obj unit) :
  outcome (make_plot_function exact_riemann_solution plot_riemann a b c d)
    = inr pf ->
  exists states speeds reval wave_types,
    exact_riemann_solution a b c d = [states; speeds; reval; wave_types] /\
    pf = plot_function plot_riemann states speeds reval wave_types a b c d.
Proof.
  rewrite make_plot_function_outcome.
  destruct (exact_riemann_solution a b c d)
    as [|s [|sp [|r [|w [|x seq]]]]]; try discriminate.
  intros [= <-]. now exists s, sp, r, w.
Qed.

Lemma plot_function_phase_plane
    (states speeds reval wave_types q_l q_r aux_l aux_r : Obj)
    (t : float) (which_char : option Z) :
  phase_plane_calls
    (calls (plot_function plot_riemann states speeds reval wave_types
              q_l q_r aux_l aux_r t which_char))
  = match plot_riemann states speeds reval wave_types t with
    | _ :: _ :: _ :: ax3 :: _ => [(q_l, q_r, aux_l, aux_r, ax3)]
    | _ => []
    end.
Proof.
  unfold plot_function, item.
  destruct which_char as [[|[p|[p|p|]|]|p]|];
    destruct (plot_riemann states speeds reval wave_types t)
      as [|x0 [|x1 [|x2 [|x3 ax]]]]; reflexivity.
Qed.

Lemma plot_function_overlay
    (states speeds reval wave_types q_l q_r aux_l aux_r : Obj)
    (t : float) (which_char : option Z) :
  characteristics_calls
    (calls (plot_function plot_riemann states speeds reval wave_types
              q_l q_r aux_l aux_r t which_char))
  = match which_char, plot_riemann states speeds reval wave_types t with
    | Some 1%Z, ax0 :: _ => [(lambda1, (aux_l, aux_r), ax0)]
    | Some 2%Z, ax0 :: _ => [(lambda2, (aux_l, aux_r), ax0)]
    | _, _ => []
    end.
Proof.
  unfold plot_function, item.
  destruct which_char as [[|[p|[p|p|]|]|p]|];
    destruct (plot_riemann states speeds reval wave_types t)
      as [|x0 [|x1 [|x2 [|x3 ax]]]]; reflexivity.
Qed.
End GlueExtra.

(** X8. A call of the plotting closure completes exactly when
    [riemann_tools.plot_riemann] returned at least four axes; with fewer it
    raises [IndexError], after having drawn with [plot_riemann] once, and
    then neither the phase-plane plot nor [plt.show()] is reached.  Whatever
    happens, [plot_riemann] is called exactly once and [plt.show()] at most
    once. *)
Theorem plot_function_needs_four_axes
    (Obj : Type) (plot_riemann : Obj -> Obj -> Obj -> Obj -> float -> list Obj)
    (states speeds reval wave_types q_l q_r aux_l aux_r : Obj)
    (t : float) (which_char : option Z) :
  let ax := plot_riemann states speeds reval wave_types t in
  let run := plot_function plot_riemann states speeds reval wave_types
               q_l q_r aux_l aux_r t which_char in
  outcome run = (if 4 <=? List.length ax then inr tt else inl IndexError) /\
  show_calls (calls run) = (if 4 <=? List.length ax then 1 else 0) /\
  List.length (phase_plane_calls (calls run))
    = (if 4 <=? List.length ax then 1 else 0) /\
  plot_riemann_calls (calls run) = 1.
Proof.
  cbv zeta. unfold plot_function, item.
  destruct which_char as [[|[p|[p|p|]|]|p]|];
    destruct (plot_riemann states speeds reval wave_types t)
      as [|x0 [|x1 [|x2 [|x3 ax]]]]; repeat split; reflexivity.
Qed.

(** X9. The plotting closure overlays characteristics only for the
    selector values 1 and 2, at most once per call, on the first axes and
    with the parameters of both sides: family 1 with [lambda1], family 2
    with [lambda2]; for [None] and for any other number it overlays
    nothing, and with no axes at all it raises before overlaying. *)
Theorem overlay_follows_selector
    (Obj : Type) (plot_riemann : Obj -> Obj -> Obj -> Obj -> float -> list Obj)
    (states speeds reval wave_types q_l q_r aux_l aux_r : Obj)
    (t : float) (which_char : option Z) :
  characteristics_calls
    (calls (plot_function plot_riemann states speeds reval wave_types
              q_l q_r aux_l aux_r t which_char))
  = match which_char, plot_riemann states speeds reval wave_types t with
    | Some 1%Z, ax0 :: _ => [(lambda1, (aux_l, aux_r), ax0)]
    | Some 2%Z, ax0 :: _ => [(lambda2, (aux_l, aux_r), ax0)]
    | _, _ => []
    end.
Proof. apply plot_function_overlay. Qed.

(** X10. [plot_riemann_nonlinear_elasticity] completes exactly when the
    solver returned exactly four values, and otherwise raises [ValueError];
    [interact] is reached once in the first case and never in the second,
    and nothing is drawn by the call itself (drawing is left to the closure
    it hands to [interact]). *)
Theorem plot_riemann_nonlinear_elasticity_outcome
    (Obj : Type)
    (exact_riemann_solution : Obj -> Obj -> Obj -> Obj -> list Obj)
    (plot_riemann : Obj -> Obj -> Obj -> Obj -> float -> list Obj)
    (a b c d : Obj) :
  let n := List.length (exact_riemann_solution a b c d) in
  let run := plot_riemann_nonlinear_elasticity exact_riemann_solution
               plot_riemann a b c d in
  outcome run = (if n =? 4 then inr tt else inl ValueError) /\
  interact_calls (calls run) = (if n =? 4 then 1 else 0) /\
  plot_riemann_calls (calls run) = 0 /\
  show_calls (calls run) = 0.
Proof.
  cbv zeta. unfold plot_riemann_nonlinear_elasticity, make_plot_function.
  destruct (exact_riemann_solution a b c d)
    as [|x0 [|x1 [|x2 [|x3 [|x4 seq]]]]]; repeat split; reflexivity.
Qed.

(** X11. Every closure that [make_plot_function a b c d] returns keeps to
    the inputs it was made from: called with any [t] and selector, it never
    calls the solver again, every phase-plane plot it draws is of
    [(a, b, c, d)], and every characteristic overlay uses the parameter
    pair [(c, d)]. *)
Theorem closure_reuses_inputs
    (Obj : Type)
    (exact_riemann_solution : Obj -> Obj -> Obj -> Obj -> list Obj)
    (plot_riemann : Obj -> Obj -> Obj -> Obj -> float -> list Obj)
    (a b c d : Obj) (pf : float -> option Z -> Py Obj unit) :
  outcome (make_plot_function exact_riemann_solution plot_riemann a b c d)
    = inr pf ->
  forall (t : float) (which_char : option Z),
    solver_calls (calls (pf t which_char)) = [] /\
    Forall (fun p => fst p = (a, b, c, d))
      (phase_plane_calls (calls (pf t which_char))) /\
    Forall (fun o => snd (fst o) = (c, d))
      (characteristics_calls (calls (pf t which_char))).
Proof.
  intros Hpf t which_char.
  destruct (make_plot_function_closure _ _ _ _ _ _ _ _ Hpf)
    as (s & sp & r & w & _ & ->).
  rewrite plot_function_no_solver_call, plot_function_phase_plane,
    plot_function_overlay.
  split; [reflexivity|]. split.
  - destruct (plot_riemann s sp r w t) as [|x0 [|x1 [|x2 [|x3 ax]]]];
      repeat constructor.
  - destruct which_char as [[|[p|[p|p|]|]|p]|];
      destruct (plot_riemann s sp r w t) as [|x0 ax]; repeat constructor.
Qed.

Lemma closure_reuses_inputs_witness :
  exists pf : float -> option Z -> Py string unit,
    outcome (make_plot_function
               (fun _ _ _ _ => ["states"; "speeds"; "reval"; "wave_types"]%string)
               (fun _ _ _ _ _ => ["ax0"; "ax1"; "ax2"; "ax3"]%string)
               "q_l" "q_r" "aux_l" "aux_r")%string = inr pf /\
    phase_plane_calls (calls (pf 0%float (Some 1%Z)))
      = [("q_l", "q_r", "aux_l", "aux_r", "ax3")]%string /\
    Forall (fun p => fst p = ("q_l", "q_r", "aux_l", "aux_r")%string)
      (phase_plane_calls (calls (pf 0%float (Some 1%Z)))).
Proof.
  eexists. split; [reflexivity|]. split; [reflexivity|].
  exact (proj1 (proj2
    (closure_reuses_inputs string
       (fun _ _ _ _ => ["states"; "speeds"; "reval"; "wave_types"]%string)
       (fun _ _ _ _ _ => ["ax0"; "ax1"; "ax2"; "ax3"]%string)
       "q_l"%string "q_r"%string "aux_l"%string "aux_r"%string _ eq_refl
       0%float (Some 1%Z)))).
Defined.

(** ** The data cells in a session *)

Section NotebookFacts.
Variable Obj : Type.
Variable array : list float -> Obj.
Variable dict : list (string * string) -> Obj.
Variable nonlinear_elasticity_1D : Obj.
Variable exact_riemann_solution : Obj -> Obj -> Obj -> Obj -> list Obj.
Variable plot_riemann : Obj -> Obj -> Obj -> Obj -> float -> list Obj.
Variable tools_make_plot_function :
  list Obj -> list Obj -> list Obj -> Obj * list string -> Obj.
Variable conserved_variables : Obj.
Variable riemann_solution : Obj -> Obj -> Obj -> Obj -> Obj -> Obj -> list Obj.
Variable fwave_make_plot_function : Obj -> Obj -> Obj -> Obj.

Local Open Scope string_scope.

Ltac step_cell :=
  repeat (match goal with
          | H : ?l = _ |- context [?l] => rewrite H
          end; cbn).

(** X12. Run before the data cell, in a session where [q_l] is not
    defined, the f-wave cell raises [NameError] for [q_l] without calling
    any collaborator; the names [solver] and [problem_data], assigned
    before the failing line, stay assigned. *)
Theorem fwave_cell_without_data (g : Globals Obj) :
  g "q_l" = None ->
  fwave_cell dict nonlinear_elasticity_1D riemann_solution g
  = ([], inl (NameError "q_l"),
     assign "problem_data" (dict [("stress_relation", "quadratic")])
       (assign "solver" nonlinear_elasticity_1D g)).
Proof.
  intros H. unfold fwave_cell, cell_bind, store, lookup, assign. cbn.
  rewrite H. reflexivity.
Qed.

(** X13. When the f-wave solver returns a number of values other than
    three, the f-wave cell raises [ValueError] after the solver has been
    called, and none of [fw_states], [fw_speeds], [fw_reval] is assigned:
    each keeps what it held before. *)
Theorem fwave_cell_wrong_length (g : Globals Obj) (a b c d : Obj) :
  g "q_l" = Some a -> g "q_r" = Some b ->
  g "aux_l" = Some c -> g "aux_r" = Some d ->
  List.length
    (riemann_solution nonlinear_elasticity_1D a b c d
       (dict [("stress_relation", "quadratic")])) <> 3%nat ->
  let '(log, out, g') :=
    fwave_cell dict nonlinear_elasticity_1D riemann_solution g in
  log = [riemann_solution_call nonlinear_elasticity_1D a b c d
           (dict [("stress_relation", "quadratic")]) false true true] /\
  out = inl (Raised ValueError) /\
  g' "fw_states" = g "fw_states" /\
  g' "fw_speeds" = g "fw_speeds" /\
  g' "fw_reval" = g "fw_reval".
Proof.
  intros Ha Hb Hc Hd Hlen.
  unfold fwave_cell, cell_bind, store, lookup, cell_emit, assign. cbn.
  step_cell.
  destruct (riemann_solution nonlinear_elasticity_1D a b c d
              (dict [("stress_relation", "quadratic")]))
    as [|x0 [|x1 [|x2 [|x3 seq]]]]; cbn; try (repeat split; reflexivity).
  now contradiction Hlen.
Qed.


(** With all seven names it reads defined, the comparison cell in a
    session makes the calls of [comparison_cell] on the values of those
    names, in the same order, and has the same outcome. *)
Lemma comparison_cell_in_session_agrees
    (g : Globals Obj) (a b c d fs fsp fr : Obj) :
  g "q_l" = Some a -> g "q_r" = Some b ->
  g "aux_l" = Some c -> g "aux_r" = Some d ->
  g "fw_states" = Some fs -> g "fw_speeds" = Some fsp ->
  g "fw_reval" = Some fr ->
  let '(log, out, _) :=
    comparison_cell_in_session exact_riemann_solution
      tools_make_plot_function conserved_variables g in
  let run := comparison_cell exact_riemann_solution tools_make_plot_function
               conserved_variables a b c d fs fsp fr in
  log = map glue (calls run) /\
  out = match outcome run with
        | inl e => inl (Raised e)
        | inr x => inr x
        end.
Proof.
  intros Ha Hb Hc Hd Hfs Hfsp Hfr.
  unfold comparison_cell_in_session, comparison_cell, cell_bind, store,
    lookup, cell_emit, run_glue, assign. cbn.
  step_cell.
  destruct (exact_riemann_solution a b c d)
    as [|x0 [|x1 [|x2 [|x3 [|x4 seq]]]]]; cbn;
    try (split; reflexivity).
  step_cell. split; reflexivity.
Qed.

(** X15. Running the four cells in order, from any session state, when
    the exact solver returns four values and the f-wave solver three:
    the run completes; the exact solver is called twice and the f-wave
    solver once, each time with the four arrays the data cell builds; and
    the comparison plot receives the exact and the f-wave results paired
    position by position.  Nothing of the earlier state reaches a call. *)
Theorem run_all_calls (g : Globals Obj) (s sp r w fs fsp fr : Obj) :
  let q_l := array [0x1.0cccccccccccdp+1; 0]%float in
  let q_r := array [0; 0]%float in
  let aux_l := array [1; 5; 1]%float in
  let aux_r := array [1; 2; 1]%float in
  let problem_data := dict [("stress_relation", "quadratic")] in
  let slider := [("t", FloatSlider 0x1.999999999999ap-2 0
                         0x1.ccccccccccccdp-1 0x1.999999999999ap-4)] in
  let contacts := ["contact"; "contact"; "contact"] in
  exact_riemann_solution q_l q_r aux_l aux_r = [s; sp; r; w] ->
  riemann_solution nonlinear_elasticity_1D q_l q_r aux_l aux_r problem_data
    = [fs; fsp; fr] ->
  let '(log, out, _) :=
    run_all array dict nonlinear_elasticity_1D exact_riemann_solution
      plot_riemann tools_make_plot_function conserved_variables
      riemann_solution fwave_make_plot_function g in
  out = inr tt /\
  log = [glue (exact_riemann_solution_call q_l q_r aux_l aux_r);
         glue (interact_call
                 (closure (plot_function plot_riemann s sp r w
                             q_l q_r aux_l aux_r))
                 [("t", FloatSlider 0 0 1 0x1.999999999999ap-4);
                  ("which_char",
                   Dropdown [None; Some 1%Z; Some 2%Z]
                     "Show characteristics")]);
         riemann_solution_call nonlinear_elasticity_1D q_l q_r aux_l aux_r
           problem_data false true true;
         fwave_make_plot_function_call fs fsp fr "vertical"
           ["Strain"; "Momentum"];
         glue (interact_call (external (fwave_make_plot_function fs fsp fr))
                 slider);
         glue (exact_riemann_solution_call q_l q_r aux_l aux_r);
         glue (tools_make_plot_function_call [s; fs] [sp; fsp] [r; fr]
                 (w, contacts) ["Exact"; "$f$-wave"] "vertical"
                 conserved_variables);
         glue (interact_call
                 (external (tools_make_plot_function [s; fs] [sp; fsp]
                              [r; fr] (w, contacts)))
                 slider)].
Proof.
  cbv zeta. intros Hsol Hfw.
  unfold run_all, data_cell, fwave_cell, fwave_plot_cell,
    comparison_cell_in_session, cell_bind, store, lookup, cell_emit,
    run_glue, assign, plot_riemann_nonlinear_elasticity, make_plot_function.
  cbn. step_cell. split; reflexivity.
Qed.
(** X16. The data cell never raises [NameError]: from any session state it
    assigns the four arrays, replacing whatever [aux_l], [aux_r], [q_l] and
    [q_r] held, and they stay assigned whether or not the plotting call
    then fails; it completes exactly when the exact solver returns four
    values and raises [ValueError] otherwise. *)
Theorem data_cell_outcome (g : Globals Obj) :
  let q_l := array [0x1.0cccccccccccdp+1; 0]%float in
  let q_r := array [0; 0]%float in
  let aux_l := array [1; 5; 1]%float in
  let aux_r := array [1; 2; 1]%float in
  let '(log, out, g') := data_cell array exact_riemann_solution plot_riemann g in
  out = (if Nat.eqb (List.length (exact_riemann_solution q_l q_r aux_l aux_r)) 4
         then inr tt else inl (Raised ValueError)) /\
  hd_error log = Some (glue (exact_riemann_solution_call q_l q_r aux_l aux_r)) /\
  g' "q_l" = Some q_l /\ g' "q_r" = Some q_r /\
  g' "aux_l" = Some aux_l /\ g' "aux_r" = Some aux_r.
Proof.
  cbv zeta.
  unfold data_cell, cell_bind, store, lookup, run_glue, assign,
    plot_riemann_nonlinear_elasticity, make_plot_function. cbn.
  destruct (exact_riemann_solution _ _ _ _)
    as [|x0 [|x1 [|x2 [|x3 [|x4 seq]]]]]; cbn; repeat split; reflexivity.
Qed.

(** X17. The f-wave plotting cell reads [fw_states], [fw_speeds] and
    [fw_reval] in that order: if one is not defined it raises [NameError]
    for the first missing one, having called nothing and assigned nothing;
    otherwise it calls [riemann_tools.make_plot_function] on the three,
    assigns the result to [plot_function] and hands it to [interact]. *)
Theorem fwave_plot_cell_outcome (g : Globals Obj) :
  fwave_plot_cell fwave_make_plot_function g
  = match g "fw_states", g "fw_speeds", g "fw_reval" with
    | Some fs, Some fsp, Some fr =>
        ([fwave_make_plot_function_call fs fsp fr "vertical"
            ["Strain"; "Momentum"];
          glue (interact_call (external (fwave_make_plot_function fs fsp fr))
                  [("t", FloatSlider 0x1.999999999999ap-2 0
                           0x1.ccccccccccccdp-1 0x1.999999999999ap-4)])],
         inr tt,
         assign "plot_function" (fwave_make_plot_function fs fsp fr) g)
    | None, _, _ => ([], inl (NameError "fw_states"), g)
    | Some _, None, _ => ([], inl (NameError "fw_speeds"), g)
    | Some _, Some _, None => ([], inl (NameError "fw_reval"), g)
    end.
Proof.
  unfold fwave_plot_cell, cell_bind, store, lookup, cell_emit, assign.
  destruct (g "fw_states"); cbn; [|reflexivity].
  destruct (g "fw_speeds"); cbn; [|reflexivity].
  destruct (g "fw_reval"); cbn; reflexivity.
Qed.
End NotebookFacts.

Section NotebookWitnesses.
Local Open Scope string_scope.

Lemma fwave_cell_without_data_witness :
  @no_globals sample "q_l" = None /\
  fwave_cell Dict (Named "nonlinear_elasticity_1D") sample_fwave no_globals
  = ([], inl (NameError "q_l"),
     assign "problem_data" (Dict [("stress_relation", "quadratic")])
       (assign "solver" (Named "nonlinear_elasticity_1D") no_globals)).
Proof.
  split; [reflexivity|].
  apply (fwave_cell_without_data sample Dict (Named "nonlinear_elasticity_1D")
           sample_fwave no_globals).
  reflexivity.
Defined.

Lemma fwave_cell_wrong_length_witness :
  let '(log, out, g') :=
    fwave_cell Dict (Named "nonlinear_elasticity_1D")
      (fun _ _ _ _ _ _ => [Named "fw_states"; Named "fw_speeds"]) data_only in
  log = [riemann_solution_call (Named "nonlinear_elasticity_1D")
           (Arr [0x1.0cccccccccccdp+1; 0]%float) (Arr [0; 0]%float)
           (Arr [1; 5; 1]%float) (Arr [1; 2; 1]%float)
           (Dict [("stress_relation", "quadratic")]) false true true] /\
  out = inl (Raised ValueError) /\
  g' "fw_states" = data_only "fw_states" /\
  g' "fw_speeds" = data_only "fw_speeds" /\
  g' "fw_reval" = data_only "fw_reval".
Proof.
  apply (fwave_cell_wrong_length sample Dict (Named "nonlinear_elasticity_1D")
           (fun _ _ _ _ _ _ => [Named "fw_states"; Named "fw_speeds"])
           data_only
           (Arr [0x1.0cccccccccccdp+1; 0]%float) (Arr [0; 0]%float)
           (Arr [1; 5; 1]%float) (Arr [1; 2; 1]%float));
    try reflexivity.
  discriminate.
Defined.


Lemma comparison_cell_in_session_agrees_witness :
  let '(log, out, _) :=
    comparison_cell_in_session sample_exact (fun _ _ _ _ => Named "plot")
      (Named "conserved_variables") data_and_fwave in
  let run := comparison_cell sample_exact (fun _ _ _ _ => Named "plot")
               (Named "conserved_variables")
               (Arr [0x1.0cccccccccccdp+1; 0]%float) (Arr [0; 0]%float)
               (Arr [1; 5; 1]%float) (Arr [1; 2; 1]%float)
               (Named "fw_states") (Named "fw_speeds") (Named "fw_reval") in
  log = map glue (calls run) /\
  out = match outcome run with
        | inl e => inl (Raised e)
        | inr x => inr x
        end.
Proof.
  apply (comparison_cell_in_session_agrees sample sample_exact
           (fun _ _ _ _ => Named "plot") (Named "conserved_variables")
           data_and_fwave
           (Arr [0x1.0cccccccccccdp+1; 0]%float) (Arr [0; 0]%float)
           (Arr [1; 5; 1]%float) (Arr [1; 2; 1]%float)
           (Named "fw_states") (Named "fw_speeds") (Named "fw_reval"));
    reflexivity.
Defined.

Lemma run_all_calls_witness :
  let '(log, out, _) :=
    run_all Arr Dict (Named "nonlinear_elasticity_1D") sample_exact
      sample_axes (fun _ _ _ _ => Named "plot") (Named "conserved_variables")
      sample_fwave (fun _ _ _ => Named "fw_plot") no_globals in
  out = inr tt /\ List.length log = 8%nat.
Proof.
  pose proof (run_all_calls sample Arr Dict (Named "nonlinear_elasticity_1D")
                sample_exact sample_axes (fun _ _ _ _ => Named "plot")
                (Named "conserved_variables") sample_fwave
                (fun _ _ _ => Named "fw_plot") no_globals
                (Named "states") (Named "speeds") (Named "reval")
                (Named "wave_types")
                (Named "fw_states") (Named "fw_speeds") (Named "fw_reval")
                eq_refl eq_refl) as H.
  destruct (run_all Arr Dict (Named "nonlinear_elasticity_1D") sample_exact
              sample_axes (fun _ _ _ _ => Named "plot")
              (Named "conserved_variables") sample_fwave
              (fun _ _ _ => Named "fw_plot") no_globals) as [[log out] g'].
  destruct H as [Hout Hlog]. split; [exact Hout|]. now rewrite Hlog.
Defined.
End NotebookWitnesses.
